(** * Temporal layout of the timeline component

    A shallow embedding of the three copies of the timeline component of the
    repository (src/src/components/Timeline.tsx, src/unnamed/part_000 and the
    component stored after the Tailwind configuration in
    src/tailwind.config.js), with the properties of its date arithmetic,
    domain resolution, horizontal scale and lane layout.

    Scope of the model of the ECMAScript [Date] object and of numbers:
    - a date is its time value, a number of milliseconds since the epoch, or
      the Invalid Date (time value NaN);
    - whatever builds a date from numbers ([new Date(y, m, d, ...)],
      [new Date(value)], [setMonth]) ends with the range check of the
      platform, [TimeClip]: a time value beyond 8.64e15 milliseconds from the
      epoch is the Invalid Date;
    - the constructor [new Date(y, m, d, ...)] reads a year argument from 0
      to 99 as 1900 + y, as the platform does ([yearArgument]); [setMonth]
      has no such rule;
    - a host ([Host]) is a UTC offset [LocalTZA] below one day that never
      changes, and a parser of date strings; a host whose offset changes
      with daylight saving is outside the development;
    - a number that the code computes is NaN ([None]) or an exact value (an
      integer or a rational); the time values of dates are integers below
      2^53, which doubles hold exactly, and the pixel coordinates are given
      without the rounding of doubles. *)

From Stdlib Require Import ZArith QArith Qminmax Lia Lqa List Sorted Permutation
  Bool String Ascii.
Import ListNotations.
Local Open Scope Z_scope.

(** ** Day numbers and years (ECMAScript, Time Values and Time Range) *)

Module Calendar.

Definition msPerDay : Z := 86400000.
Definition msPerHour : Z := 3600000.
Definition msPerMinute : Z := 60000.
Definition msPerSecond : Z := 1000.

(** The largest time value of a date (ECMAScript, Time Values and Time
    Range): 100,000,000 days. *)
Definition maxTimeValue : Z := 8640000000000000.

Definition Day (t : Z) : Z := t / msPerDay.
Definition TimeWithinDay (t : Z) : Z := t mod msPerDay.

Definition isLeap (y : Z) : bool :=
  (y mod 4 =? 0) && (negb (y mod 100 =? 0) || (y mod 400 =? 0)).

Definition DaysInYear (y : Z) : Z := if isLeap y then 366 else 365.

Definition DayFromYear (y : Z) : Z :=
  365 * (y - 1970) + (y - 1969) / 4 - (y - 1901) / 100 + (y - 1601) / 400.

(** The year of a day number: the largest [y] with [DayFromYear y <= d].
    The estimate from the mean length of a year is off by at most one. *)
Definition YearFromDay (d : Z) : Z :=
  let y0 := 1970 + (d * 400) / 146097 in
  if DayFromYear (y0 + 1) <=? d then y0 + 1
  else if DayFromYear y0 <=? d then y0
  else y0 - 1.

(** Days of the year before month [m] (0 = January). *)
Definition monthOffset (leap : bool) (m : Z) : Z :=
  let l := if leap then 1 else 0 in
  if m <=? 0 then 0
  else if m =? 1 then 31
  else if m =? 2 then 59 + l
  else if m =? 3 then 90 + l
  else if m =? 4 then 120 + l
  else if m =? 5 then 151 + l
  else if m =? 6 then 181 + l
  else if m =? 7 then 212 + l
  else if m =? 8 then 243 + l
  else if m =? 9 then 273 + l
  else if m =? 10 then 304 + l
  else if m =? 11 then 334 + l
  else 365 + l.

(** The month of a day within its year (MonthFromTime). *)
Definition monthOfYearDay (leap : bool) (dy : Z) : Z :=
  let l := if leap then 1 else 0 in
  if dy <? 31 then 0
  else if dy <? 59 + l then 1
  else if dy <? 90 + l then 2
  else if dy <? 120 + l then 3
  else if dy <? 151 + l then 4
  else if dy <? 181 + l then 5
  else if dy <? 212 + l then 6
  else if dy <? 243 + l then 7
  else if dy <? 273 + l then 8
  else if dy <? 304 + l then 9
  else if dy <? 334 + l then 10
  else 11.

Definition YearFromTime (t : Z) : Z := YearFromDay (Day t).
Definition InLeapYear (t : Z) : bool := isLeap (YearFromTime t).
Definition DayWithinYear (t : Z) : Z := Day t - DayFromYear (YearFromTime t).
Definition MonthFromTime (t : Z) : Z :=
  monthOfYearDay (InLeapYear t) (DayWithinYear t).
Definition DateFromTime (t : Z) : Z :=
  DayWithinYear t - monthOffset (InLeapYear t) (MonthFromTime t) + 1.

(** MakeDay: the day number of day [date] of month [month] of [year]; months
    outside 0..11 carry into the year. *)
Definition MakeDay (year month date : Z) : Z :=
  let ym := year + month / 12 in
  let mn := month mod 12 in
  DayFromYear ym + monthOffset (isLeap ym) mn + date - 1.

Definition MakeTime (h m s ms : Z) : Z :=
  h * msPerHour + m * msPerMinute + s * msPerSecond + ms.

Definition MakeDate (day time : Z) : Z := day * msPerDay + time.

(** Months counted from year 0: the index of month [m] of year [y]. *)
Definition monthIndex (y m : Z) : Z := 12 * y + m.

(** First day of the month of index [i]. *)
Definition monthStartDay (i : Z) : Z := MakeDay 0 i 1.

Definition monthIndexOfDay (d : Z) : Z :=
  let y := YearFromDay d in
  monthIndex y (monthOfYearDay (isLeap y) (d - DayFromYear y)).

End Calendar.

Import Calendar.

(** ** Numbers and the Date object *)

(** A number of the program: [None] is NaN.  Integers and rationals are both
    numbers of the source; [inject_Z] is the identity there. *)
Definition lift2 {A B C : Type} (f : A -> B -> C)
  (a : option A) (b : option B) : option C :=
  match a, b with
  | Some u, Some v => Some (f u v)
  | _, _ => None
  end.

Definition zadd := lift2 Z.add.
Definition zsub := lift2 Z.sub.
Definition zmul := lift2 Z.mul.
Definition qadd := lift2 Qplus.
Definition qsub := lift2 Qminus.
Definition qmul := lift2 Qmult.

Definition toQ (a : option Z) : option Q := option_map inject_Z a.

(** Quotient of two integers.  A zero divisor (an infinity or NaN in the
    source) is mapped to NaN; the scale never divides by zero, see
    [month_length_pos]. *)
Definition zdiv (a b : option Z) : option Q :=
  match a, b with
  | Some u, Some v => if v =? 0 then None else Some (inject_Z u / inject_Z v)%Q
  | _, _ => None
  end.

(** Math.max of two numbers: NaN if either is. *)
Definition Math_max2 (a b : option Q) : option Q := lift2 Qmax a b.

(** The result of Math.min / Math.max over time values: these alone produce
    infinities, on an empty argument list. *)
Inductive extremum : Type :=
| ENaN
| PosInfinity
| NegInfinity
| Finite (z : Z).

Fixpoint Math_min (l : list (option Z)) : extremum :=
  match l with
  | [] => PosInfinity
  | v :: r =>
      match v, Math_min r with
      | None, _ => ENaN
      | Some _, ENaN => ENaN
      | Some a, PosInfinity => Finite a
      | Some _, NegInfinity => NegInfinity
      | Some a, Finite b => Finite (Z.min a b)
      end
  end.

Fixpoint Math_max (l : list (option Z)) : extremum :=
  match l with
  | [] => NegInfinity
  | v :: r =>
      match v, Math_max r with
      | None, _ => ENaN
      | Some _, ENaN => ENaN
      | Some a, NegInfinity => Finite a
      | Some _, PosInfinity => PosInfinity
      | Some a, Finite b => Finite (Z.max a b)
      end
  end.

Inductive Date : Type :=
| InvalidDate
| Time (tv : Z).

(** TimeClip: a time value out of range is NaN. *)
Definition TimeClip (t : Z) : Date :=
  if Z.abs t <=? maxTimeValue then Time t else InvalidDate.

(** The year argument of [new Date(y, m, ...)]: an integer from 0 to 99 is
    read as 1900 + y. *)
Definition yearArgument (y : Z) : Z :=
  if (0 <=? y) && (y <=? 99) then 1900 + y else y.

(** What the host decides: its offset from UTC in milliseconds, below one
    day, and the parser of date strings behind [new Date(string)]. *)
Class Host : Type := {
  LocalTZA : Z;
  Date_parse : string -> Date;
  LocalTZA_range : Z.abs LocalTZA < msPerDay
}.

(** A start or end field: [string | Date]. *)
Inductive DateInput : Type :=
| Str (s : string)
| Obj (d : Date).

(** Truthiness of a [string | Date] value: only the empty string is falsy. *)
Definition truthy (v : DateInput) : bool :=
  match v with
  | Str EmptyString => false
  | _ => true
  end.

Section DateMath.
Context {host : Host}.

Definition LocalTime (t : Z) : Z := t + LocalTZA.
Definition UTC (t : Z) : Z := t - LocalTZA.

(** [Number(d)], also written [+d]. *)
Definition Number (d : Date) : option Z :=
  match d with
  | InvalidDate => None
  | Time t => Some t
  end.

(** [new Date(value)] on the result of Math.min / Math.max. *)
Definition Date_of_number (v : extremum) : Date :=
  match v with
  | Finite z => TimeClip z
  | _ => InvalidDate
  end.

Definition getFullYear (d : Date) : option Z :=
  match d with
  | InvalidDate => None
  | Time t => Some (YearFromTime (LocalTime t))
  end.

Definition getMonth (d : Date) : option Z :=
  match d with
  | InvalidDate => None
  | Time t => Some (MonthFromTime (LocalTime t))
  end.

(** [new Date(year, month, date, hours, minutes, seconds, ms)], local time. *)
Definition Date_local (y m dt h mi s ms : option Z) : Date :=
  match y, m, dt, h, mi, s, ms with
  | Some y, Some m, Some dt, Some h, Some mi, Some s, Some ms =>
      TimeClip (UTC (MakeDate (MakeDay (yearArgument y) m dt)
                              (MakeTime h mi s ms)))
  | _, _, _, _, _, _, _ => InvalidDate
  end.

(** [new Date(year, month, date)]: the time of day defaults to 0. *)
Definition Date_ymd (y m dt : option Z) : Date :=
  Date_local y m dt (Some 0) (Some 0) (Some 0) (Some 0).

(** [d.setMonth(month)], as the date it leaves in [d]. *)
Definition setMonth (d : Date) (month : option Z) : Date :=
  match d, month with
  | Time tv, Some m =>
      let t := LocalTime tv in
      TimeClip (UTC (MakeDate (MakeDay (YearFromTime t) m (DateFromTime t))
                              (TimeWithinDay t)))
  | _, _ => InvalidDate
  end.

(** *** The helpers of the component (the same text in the three files) *)

Definition toDate (d : DateInput) : Date :=
  match d with
  | Obj d => d
  | Str s => Date_parse s
  end.

Definition monthDiff (a b : Date) : option Z :=
  zadd (zmul (zsub (getFullYear b) (getFullYear a)) (Some 12))
       (zsub (getMonth b) (getMonth a)).

Definition addMonths (d : Date) (m : Z) : Date :=
  let x := d in
  setMonth x (zadd (getMonth x) (Some m)).

Definition startOfMonth (d : Date) : Date :=
  Date_ymd (getFullYear d) (getMonth d) (Some 1).

Definition startOfYear (d : Date) : Date :=
  Date_ymd (getFullYear d) (Some 0) (Some 1).

Definition endOfYear (d : Date) : Date :=
  Date_local (getFullYear d) (Some 11) (Some 31)
             (Some 23) (Some 59) (Some 59) (Some 999).

(** The loop [for (y = from; y <= upto; y++) out.push(y)]; [fuel] bounds the
    number of iterations. *)
Fixpoint yearsLoop (fuel : nat) (y upto : Z) (out : list Z) : list Z :=
  match fuel with
  | O => out
  | S fuel' =>
      if y <=? upto then yearsLoop fuel' (y + 1) upto (out ++ [y]) else out
  end.

(** A comparison with NaN is false, so the loop body never runs then. *)
Definition yearsBetween (min max : Date) : list Z :=
  match getFullYear min, getFullYear max with
  | Some a, Some b => yearsLoop (Z.to_nat (b - a + 1)) a b []
  | _, _ => []
  end.

(** The scale [x] of [SvgTimeline]: a closure over [min] and the number of
    pixels per month. *)
Definition x (pxPerMonth : Q) (min : Date) (d : Date) : option Q :=
  let m := monthDiff (startOfMonth min) (startOfMonth d) in
  let monthStart := startOfMonth d in
  let nextMonth := addMonths monthStart 1 in
  let frac := zdiv (zsub (Number d) (Number monthStart))
                   (zsub (Number nextMonth) (Number monthStart)) in
  qadd (qmul (toQ m) (Some pxPerMonth)) (qmul frac (Some pxPerMonth)).


Definition date_le (a b : Date) : Prop :=
  match a, b with
  | Time u, Time v => u <= v
  | _, _ => False
  end.

Definition num_le (a b : option Q) : Prop :=
  match a, b with
  | Some u, Some v => (u <= v)%Q
  | _, _ => False
  end.

Definition num_lt (a b : option Q) : Prop :=
  match a, b with
  | Some u, Some v => (u < v)%Q
  | _, _ => False
  end.

Definition num_eq (a : option Q) (q : Q) : Prop :=
  match a with
  | Some u => (u == q)%Q
  | None => False
  end.

End DateMath.

(** ** Months of time values

    What the statements and proofs say about valid dates is said in terms of
    the index of the local month of a time value. *)

Section Months.
Context {host : Host}.

(** Index of the local month of a time value, and the time value at which
    the local month of index [i] starts. *)
Definition monthOf (t : Z) : Z := monthIndexOfDay (Day (LocalTime t)).
Definition monthStartTime (i : Z) : Z := UTC (monthStartDay i * msPerDay).

(** The scale on valid dates: whole months from the month of [min], plus the
    elapsed share of the month of [d]. *)
Definition frac (t : Z) : Q :=
  (inject_Z (t - monthStartTime (monthOf t))
   / inject_Z (monthStartTime (monthOf t + 1) - monthStartTime (monthOf t)))%Q.

(** The coordinate of a valid date from a valid origin, as a rational. *)
Definition coord (px : Q) (m0 t : Z) : Q :=
  (inject_Z (monthOf t - monthOf m0) * px + frac t * px)%Q.

(** The last millisecond of the day [dayOffset] days into month [i]. *)
Definition lastMsOfDay (i dayOffset : Z) : Z :=
  UTC ((monthStartDay i + dayOffset) * msPerDay + (msPerDay - 1)).

(** The time value that [addMonths] hands to the range check, by the day of
    the month and the time of the day that it keeps. *)
Definition shifted (t n : Z) : Z :=
  UTC ((monthStartDay (monthOf t + n)
        + (Day (LocalTime t) - monthStartDay (monthOf t))) * msPerDay
       + TimeWithinDay (LocalTime t)).

(** A time value within the range of dates. *)
Definition inRange (t : Z) : Prop := Z.abs t <= maxTimeValue.

(** The years that the constructor takes as they are (not 0 to 99) and whose
    months all lie within the range of dates, with the month after the last
    (the range ends in April -271821 and in September 275760). *)
Definition plainYear (y : Z) : Prop :=
  -271820 <= y <= 275759 /\ (y < 0 \/ 99 < y).

(** A valid date of such a year of the local calendar. *)
Definition plain (d : Date) : Prop :=
  match getFullYear d with
  | Some y => plainYear y
  | None => False
  end.

(** The same as tests. *)
Definition plainYearb (y : Z) : bool :=
  (-271820 <=? y) && (y <=? 275759) && ((y <? 0) || (99 <? y)).

Definition plainb (d : Date) : bool :=
  match getFullYear d with
  | Some y => plainYearb y
  | None => false
  end.

End Months.

(** ** More of the Date object *)

Section MoreDate.
Context {host : Host}.

(** [d.getDate()], the day of the month: what [setMonth] keeps. *)
Definition getDate (d : Date) : option Z :=
  match d with
  | InvalidDate => None
  | Time t => Some (DateFromTime (LocalTime t))
  end.

End MoreDate.

(** ** Domain resolution *)

Record Domain : Type := { min : Date; max : Date }.

Definition isValid (d : Date) : Prop :=
  match d with
  | Time _ => True
  | InvalidDate => False
  end.

Section DomainResolver.
Context {host : Host}.

(** The body of [domainFromData] below its first line, which collects
    [dates]; the three files agree on it (two of them also print [dates] to
    the console, which leaves the result as it is). *)
Definition domainOfDates (dates : list Date) (padMonths : Z) : Domain :=
  let min := Date_of_number (Math_min (map Number dates)) in
  let max := Date_of_number (Math_max (map Number dates)) in
  let minP := addMonths (startOfYear min) (- padMonths) in
  let maxP := addMonths (endOfYear max) padMonths in
  {| min := minP; max := maxP |}.

End DomainResolver.

(** ** What the component draws *)

(** An item as drawn inside the group of its lane: a circle, in a group
    translated by [tx], or a rectangle in a group translated by [tx].
    Coordinates that come from the scale may be NaN. *)
Inductive Shape : Type :=
| Circle (tx : option Q) (cy r : Q)
| Rect (tx : Q) (rx : option Q) (ry : Q) (width : option Q) (height : Q).




(** Vertical center of a shape inside its group. *)
Definition centerY (s : Shape) : Q :=
  match s with
  | Circle _ cy _ => cy
  | Rect _ _ ry _ h => (ry + h / 2)%Q
  end.

(** The group of a lane, translated down by [translateY]. *)
Record LaneGroup : Type := { translateY : Q; shapes : list Shape }.

(** Vertical centers of the shapes of a group, on the canvas. *)
Definition canvasCenters (g : LaneGroup) : list Q :=
  map (fun s => (translateY g + centerY s)%Q) (shapes g).

(** [xs.map((v, idx) => f(v, idx))], counting from [idx]. *)
Fixpoint mapi_from {A B : Type} (f : A -> Z -> B) (idx : Z) (l : list A)
  : list B :=
  match l with
  | [] => []
  | v :: r => f v idx :: mapi_from f (idx + 1) r
  end.

Definition mapi {A B : Type} (f : A -> Z -> B) (l : list A) : list B :=
  mapi_from f 0 l.

(** Sum of a list of numbers. *)
Definition Qsum (l : list Q) : Q := fold_right Qplus 0%Q l.

(** Where a shape anchors its date on the canvas: the center of a circle
    ([cx] is 0 in its group), the left edge of a rectangle. *)
Definition anchorX (s : Shape) : option Q :=
  match s with
  | Circle tx _ _ => tx
  | Rect tx rx _ _ _ => qadd (Some tx) rx
  end.

(** How the evaluation of an expression ends: with a value, or with the
    TypeError of a property read from [undefined]. *)
Inductive completion (A : Type) : Type :=
| Returned (v : A)
| TypeError.

Arguments Returned {A} v.
Arguments TypeError {A}.

(** [data.key] on an object given by its entries: [None] is [undefined]. *)
Fixpoint Object_get {A : Type} (data : list (string * A)) (key : string)
  : option A :=
  match data with
  | [] => None
  | (k, v) :: r => if String.eqb k key then Some v else Object_get r key
  end.

(** ** src/src/components/Timeline.tsx *)

Module Timeline.
Section Component.
Context {host : Host}.

Inductive LaneId : Type := Work | School | Volunteering.

Definition LaneId_eqb (a b : LaneId) : bool :=
  match a, b with
  | Work, Work | School, School | Volunteering, Volunteering => true
  | _, _ => false
  end.

Record TimelineItem : Type := {
  id : string;
  title : string;
  start : DateInput;
  end_ : option DateInput;
  lane : LaneId
}.

Record Defaults : Type := {
  width : Q; laneHeight : Q; laneGap : Q; pxPerMonth : Q; padMonths : Z
}.

Definition DEFAULTS : Defaults :=
  {| width := 1100; laneHeight := 64; laneGap := 12; pxPerMonth := 20;
     padMonths := 1 |}.

(** [i.end ? toDate(i.end) : undefined]. *)
Definition endDate (it : TimelineItem) : option Date :=
  match end_ it with
  | Some v => if truthy v then Some (toDate v) else None
  | None => None
  end.

(** [i.end ? toDate(i.end) : toDate(i.start)]. *)
Definition endOrStart (it : TimelineItem) : Date :=
  match endDate it with
  | Some e => e
  | None => toDate (start it)
  end.

Definition itemDates (data : list TimelineItem) : list Date :=
  flat_map (fun i => [toDate (start i); endOrStart i]) data.

Definition domainFromData (data : list TimelineItem) (padMonths : Z)
  : Domain :=
  let dates := itemDates data in
  domainOfDates dates padMonths.

Definition renderItem (laneHeight pxPerMonth : Q) (min : Date)
  (it : TimelineItem) : Shape :=
  let s := toDate (start it) in
  let e := endDate it in
  let xStart := x pxPerMonth min s in
  let xEnd := match e with
              | Some e => x pxPerMonth min e
              | None => x pxPerMonth min s
              end in
  let cy := (laneHeight / 2)%Q in
  match e with
  | None => Circle xStart cy 6
  | Some _ =>
      let w := Math_max2 (Some 2%Q) (qsub xEnd xStart) in
      Rect 100 xStart (cy - 10)%Q w 20
  end.

Definition renderLane (laneHeight laneGap pxPerMonth : Q) (min : Date)
  (data : list TimelineItem) (laneId : LaneId) (idx : Z) : LaneGroup :=
  let yTop := (40 + inject_Z idx * (laneHeight + laneGap))%Q in
  {| translateY := yTop;
     shapes := map (renderItem laneHeight pxPerMonth min)
                   (filter (fun d => LaneId_eqb (lane d) laneId) data) |}.

Record Svg : Type := {
  innerWidth : option Q;
  height : Q;
  ticks : list (Z * option Q);
  groups : list LaneGroup
}.

Definition SvgTimeline (data : list TimelineItem) (lanes : list LaneId)
  (laneHeight laneGap pxPerMonth : Q) (padMonths : Z) : Svg :=
  let dom := domainFromData data padMonths in
  let min := min dom in
  let max := max dom in
  let totalMonths :=
    Math_max2 (Some 1%Q)
      (toQ (zadd (monthDiff (startOfMonth min) (startOfMonth max)) (Some 1))) in
  let yearTicks := yearsBetween min max in
  let height :=
    (inject_Z (Z.of_nat (List.length lanes)) * (laneHeight + laneGap) + 60)%Q in
  let innerWidth :=
    Math_max2 (Some 800%Q) (qmul totalMonths (Some pxPerMonth)) in
  {| innerWidth := innerWidth;
     height := height;
     ticks := map (fun y =>
                     (y, qadd (x pxPerMonth min
                                 (Date_ymd (Some y) (Some 0) (Some 1)))
                              (Some 100%Q)))
                  yearTicks;
     groups := mapi (renderLane laneHeight laneGap pxPerMonth min data)
                    lanes |}.

Definition DATA : list TimelineItem :=
  [ {| id := "a"; title := "ViLLE Team"; start := Str "2016-02-01";
       end_ := Some (Str "2016-05-30"); lane := Work |};
    {| id := "b"; title := "Vincit"; start := Str "2018-04-01";
       end_ := Some (Str "2019-08-30"); lane := Work |};
    {| id := "c"; title := "Identio"; start := Str "2020-05-01";
       end_ := Some (Str "2022-08-30"); lane := Work |};
    {| id := "d"; title := "Arado"; start := Str "2022-09-01";
       end_ := Some (Str "2025-04-30"); lane := Work |};
    {| id := "d"; title := "Purtsi Consulting"; start := Str "2025-05-01";
       end_ := Some (Str "2025-11-30"); lane := Work |} ]%string.

End Component.
End Timeline.

(** ** src/unnamed/part_000 *)

Module Lanes.
Section Component.
Context {host : Host}.

Inductive Rail : Type := Rail0 | Rail1.
Inductive RailCount : Type := OneRail | TwoRails.

Record TimelineItem : Type := {
  title : string;
  start : string;
  end_ : string;
  rail : option Rail
}.

Record LaneData : Type := {
  lane : string;
  rails : RailCount;
  items : list TimelineItem
}.

(** [Record<string, LaneData>], as the list of its entries in the order in
    which [Object.values] goes through them: each key occurs once. *)
Definition TimelineData : Type := list (string * LaneData).

Definition Object_values (data : TimelineData) : list LaneData :=
  map snd data.

Definition PX_PER_MONTH : Q := 14.
Definition LANE_HEIGHT : Q := 60.
Definition LANE_GAP : Q := 5.
Definition PAD_MONTHS : Z := 5.

Definition itemDates (data : TimelineData) : list Date :=
  flat_map (fun lane : LaneData =>
              flat_map (fun it => [toDate (Str (start it));
                                   toDate (Str (end_ it))])
                       (items lane))
           (Object_values data).

Definition domainFromData (data : TimelineData) (padMonths : Z) : Domain :=
  let dates := itemDates data in
  domainOfDates dates padMonths.

Definition renderItem (min : Date) (it : TimelineItem) : Shape :=
  let s := toDate (Str (start it)) in
  let e := if truthy (Str (end_ it)) then Some (toDate (Str (end_ it)))
           else None in
  let xStart := x PX_PER_MONTH min s in
  let xEnd := match e with
              | Some e => x PX_PER_MONTH min e
              | None => x PX_PER_MONTH min s
              end in
  let cy := (LANE_HEIGHT / 2)%Q in
  let w := Math_max2 (Some 2%Q) (qsub xEnd xStart) in
  Rect 100 xStart (cy - 20)%Q w 40.

Definition renderLane (min : Date) (lane : LaneData) (idx : Z) : LaneGroup :=
  let yTop := (40 + inject_Z idx * (LANE_HEIGHT + LANE_GAP))%Q in
  {| translateY := yTop; shapes := map (renderItem min) (items lane) |}.

Definition NUM_LANES : Q := 3.

(** The height of the canvas of [SvgTimeline]. *)
Definition canvasHeight : Q := (NUM_LANES * (LANE_HEIGHT + LANE_GAP) + 60)%Q.

(** The groups of the lanes of [SvgTimeline], for the origin [min]. *)
Definition laneGroups (min : Date) (data : TimelineData) : list LaneGroup :=
  mapi (fun lane idx => renderLane min lane idx) (Object_values data).

End Component.
End Lanes.

(** ** The component stored in src/tailwind.config.js *)

Module Rails.
Section Component.
Context {host : Host}.

Inductive Rail : Type := Rail0 | Rail1.

Record TimelineItem : Type := {
  title : string;
  start : string;
  end_ : string;
  color : string;
  rail : option Rail;
  invert : option bool
}.

Record LaneData : Type := {
  lane : string;
  items : list TimelineItem;
  height : Q;
  yTop : Q
}.

(** [Record<string, LaneData>], as the list of its entries in the order in
    which [Object.values] goes through them: each key occurs once. *)
Definition TimelineData : Type := list (string * LaneData).

Definition Object_values (data : TimelineData) : list LaneData :=
  map snd data.

Definition PX_PER_MONTH : Q := 14.
Definition LANE_HEIGHT : Q := 60.
Definition LANE_GAP : Q := 5.
Definition PAD_MONTHS : Z := 0.
Definition RULER_HEIGHT : Q := 40.
Definition RAIL_OFFSET : Q := 25.

Definition item (title start end_ color : string) (rail : option Rail)
  (invert : option bool) : TimelineItem :=
  {| title := title; start := start; end_ := end_; color := color;
     rail := rail; invert := invert |}.

Definition DATA : TimelineData :=
  [ ("work",
     {| lane := "Work";
        items :=
          [ item "ViLLE" "2016-02-01" "2016-05-30" "#5e96e3" None None;
            item "Vincit" "2018-04-01" "2019-08-30" "#d14f35" None None;
            item "Identio" "2020-05-01" "2022-08-30" "#07001f" None None;
            item "Arado" "2022-09-01" "2025-04-30" "#46d389" None (Some true);
            item "Laina DeFi" "2024-05-13" "2025-12-31" "#fff" (Some Rail1)
                 (Some true);
            item "Purtsi Consulting" "2025-05-01" "2025-12-31" "salmon" None
                 (Some true) ];
        height := LANE_HEIGHT * 2;
        yTop := RULER_HEIGHT |});
    ("school",
     {| lane := "School";
        items :=
          [ item "Turun Yliopisto" "2016-09-01" "2022-12-20" "#004a43" None
                 None ];
        height := LANE_HEIGHT;
        yTop := LANE_HEIGHT * 2 + RULER_HEIGHT |});
    ("volunteering",
     {| lane := "Volunteering";
        items :=
          [ item "Digit ry" "2018-01-01" "2019-12-31" "#000" None None;
            item "Turun Wappuradio ry" "2018-11-11" "2021-12-31" "#f65f52"
                 (Some Rail1) None ];
        height := LANE_HEIGHT * 2;
        yTop := LANE_HEIGHT * 3 + RULER_HEIGHT |}) ]%string%Q.

Definition itemDates (data : TimelineData) : list Date :=
  flat_map (fun lane : LaneData =>
              flat_map (fun it => [toDate (Str (start it));
                                   toDate (Str (end_ it))])
                       (items lane))
           (Object_values data).

Definition domainFromData (data : TimelineData) (padMonths : Z) : Domain :=
  let dates := itemDates data in
  domainOfDates dates padMonths.

Definition renderItem (min : Date) (it : TimelineItem) : Shape :=
  let s := toDate (Str (start it)) in
  let e := if truthy (Str (end_ it)) then Some (toDate (Str (end_ it)))
           else None in
  let xStart := x PX_PER_MONTH min s in
  let xEnd := match e with
              | Some e => x PX_PER_MONTH min e
              | None => x PX_PER_MONTH min s
              end in
  let cy := match rail it with
            | Some Rail1 => (LANE_HEIGHT + RAIL_OFFSET)%Q
            | _ => (LANE_HEIGHT / 2)%Q
            end in
  let w := Math_max2 (Some 2%Q) (qsub xEnd xStart) in
  Rect 0 xStart (cy - 20)%Q w 40.

Definition renderLane (min : Date) (lane : LaneData) : LaneGroup :=
  {| translateY := yTop lane; shapes := map (renderItem min) (items lane) |}.

(** The year ruler: the years of the ticks with the positions of their
    gridlines. *)
Definition yearTickPositions (min max : Date) : list (Z * option Q) :=
  let yearTicks := yearsBetween min max in
  map (fun y =>
         let xPos := x PX_PER_MONTH min (Date_ymd (Some y) (Some 0) (Some 1)) in
         (y, xPos))
      yearTicks.

(** The values that [SvgTimeline] computes before it draws. *)
Definition totalMonths (data : TimelineData) : option Q :=
  let dom := domainFromData data PAD_MONTHS in
  Math_max2 (Some 1%Q)
    (toQ (zadd (monthDiff (startOfMonth (min dom)) (startOfMonth (max dom)))
               (Some 1))).

Definition innerWidth (data : TimelineData) : option Q :=
  Math_max2 (Some 800%Q) (qmul (totalMonths data) (Some PX_PER_MONTH)).

(** [RULER_HEIGHT + data.work.height + data.school.height
    + data.volunteering.height]: a lane that is missing makes the read of its
    height a TypeError. *)
Definition canvasHeight (data : TimelineData) : completion Q :=
  match Object_get data "work", Object_get data "school",
        Object_get data "volunteering" with
  | Some work, Some school, Some volunteering =>
      Returned (RULER_HEIGHT + height work + height school
                + height volunteering)%Q
  | _, _, _ => TypeError
  end.

Record Svg : Type := {
  svgWidth : option Q;
  svgHeight : Q;
  ticks : list (Z * option Q);
  groups : list LaneGroup
}.

(** [SvgTimeline]: the canvas, the ruler and the lanes that it returns, or the
    TypeError of the height of the canvas, which it computes before it draws
    anything. *)
Definition SvgTimeline (data : TimelineData) : completion Svg :=
  let dom := domainFromData data PAD_MONTHS in
  let min := min dom in
  let max := max dom in
  match canvasHeight data with
  | TypeError => TypeError
  | Returned height =>
      Returned {| svgWidth := innerWidth data;
                  svgHeight := height;
                  ticks := yearTickPositions min max;
                  groups := map (renderLane min) (Object_values data) |}
  end.

End Component.
End Rails.

(** ** A host: UTC, with the date-only form of the date strings *)

Definition digit (c : ascii) : option Z :=
  let n := Z.of_nat (nat_of_ascii c) in
  if (48 <=? n) && (n <=? 57) then Some (n - 48) else None.

(** [YYYY-MM-DD] is read as midnight UTC of that day; a day up to 31 that
    the month does not have carries into the next month, as in the parser of
    V8.  The data of the repository has no other form; any other string is
    left invalid here. *)
Definition parseIsoDate (s : string) : Date :=
  match s with
  | String y1 (String y2 (String y3 (String y4 (String "-"
      (String m1 (String m2 (String "-"
        (String d1 (String d2 EmptyString))))))))) =>
      match digit y1, digit y2, digit y3, digit y4,
            digit m1, digit m2, digit d1, digit d2 with
      | Some a, Some b, Some c, Some d, Some e, Some f, Some g, Some h =>
          let y := 1000 * a + 100 * b + 10 * c + d in
          let m := 10 * e + f in
          let dt := 10 * g + h in
          if (1 <=? m) && (m <=? 12) && (1 <=? dt) && (dt <=? 31)
          then Time (MakeDate (MakeDay y (m - 1) dt) 0)
          else InvalidDate
      | _, _, _, _, _, _, _, _ => InvalidDate
      end
  | _ => InvalidDate
  end.

Definition utcHost : Host :=
  {| LocalTZA := 0; Date_parse := parseIsoDate; LocalTZA_range := eq_refl |}.

(** The same parser on a host three hours east of UTC. *)
Definition eastHost : Host :=
  {| LocalTZA := 3 * msPerHour; Date_parse := parseIsoDate;
     LocalTZA_range := eq_refl |}.

(** ** Notions of the statements *)

(** The years from [a] on, [n] of them. *)
Definition yearRange (a : Z) (n : nat) : list Z :=
  map (fun i => a + Z.of_nat i) (seq 0 n).

Section Clamping.
Context {host : Host}.


End Clamping.

(** ** Sample inputs

    Items and lanes on which the statements below are instantiated. *)

(** The first day of 2016 in UTC, the origin of the domain of the data. *)
Definition origin2016 : Z := 1451606400000.

(** An item of Timeline.tsx with an end, and one without. *)
Definition identio : Timeline.TimelineItem :=
  {| Timeline.id := "c"; Timeline.title := "Identio";
     Timeline.start := Str "2020-05-01";
     Timeline.end_ := Some (Str "2022-08-30");
     Timeline.lane := Timeline.Work |}%string.

Definition graduation : Timeline.TimelineItem :=
  {| Timeline.id := "g"; Timeline.title := "Graduation";
     Timeline.start := Str "2022-12-20";
     Timeline.end_ := None;
     Timeline.lane := Timeline.School |}%string.

(** Items of the component with rails: one of its data, one whose end
    precedes its start, one that ends on the day it starts. *)
Definition arado : Rails.TimelineItem :=
  Rails.item "Arado" "2022-09-01" "2025-04-30" "#46d389" None (Some true).


Definition sameDay : Rails.TimelineItem :=
  Rails.item "Same day" "2020-05-01" "2020-05-01" "#000" None None.

(** A lane without items. *)
Definition emptyLane : Rails.TimelineData :=
  [ ("work"%string,
     {| Rails.lane := "Work"; Rails.items := [];
        Rails.height := 120; Rails.yTop := 40 |}) ].

(** The lanes that Timeline.tsx draws by default. *)
Definition defaultLanes : list Timeline.LaneId :=
  [Timeline.Work; Timeline.School; Timeline.Volunteering].

(** Midnight UTC of 2020-01-15, 2020-05-01 and 2020-05-20. *)
Definition jan15 : Z := 1579046400000.
Definition may01 : Z := 1588291200000.
Definition may20 : Z := 1589932800000.

(** Two items of Timeline.tsx on the first of January 2020 of a host in
    UTC, one with an end and one without, and one whose start is no date. *)
Definition newYearBar : Timeline.TimelineItem :=
  {| Timeline.id := "n"; Timeline.title := "Bar";
     Timeline.start := Obj (@Date_ymd utcHost (Some 2020) (Some 0) (Some 1));
     Timeline.end_ := Some (Str "2020-03-01");
     Timeline.lane := Timeline.Work |}%string.

Definition newYearPoint : Timeline.TimelineItem :=
  {| Timeline.id := "p"; Timeline.title := "Point";
     Timeline.start := Obj (@Date_ymd utcHost (Some 2020) (Some 0) (Some 1));
     Timeline.end_ := None;
     Timeline.lane := Timeline.Work |}%string.

Definition brokenItem : Timeline.TimelineItem :=
  {| Timeline.id := "x"; Timeline.title := "Broken";
     Timeline.start := Str "soon";
     Timeline.end_ := None;
     Timeline.lane := Timeline.Work |}%string.

(** Four lanes for part_000, and a fourth lane for the component with
    rails. *)
Definition noItems (name : string) : Lanes.LaneData :=
  {| Lanes.lane := name; Lanes.rails := Lanes.OneRail; Lanes.items := [] |}.

Definition fourLanes : Lanes.TimelineData :=
  [ ("work", noItems "Work"); ("school", noItems "School");
    ("volunteering", noItems "Volunteering");
    ("hobbies", noItems "Hobbies") ]%string.

Definition hobbies : Rails.LaneData :=
  {| Rails.lane := "Hobbies"; Rails.items := [];
     Rails.height := 60; Rails.yTop := 340 |}.

(** Two items of Timeline.tsx on a host in UTC, of the year -1 and of the
    year 101, and the two days between them at which the year 99 ends and
    the year 100 starts. *)
Definition ancient : list Timeline.TimelineItem :=
  [ {| Timeline.id := "o"; Timeline.title := "Old";
       Timeline.start :=
         Obj (@Date_ymd utcHost (Some (-1)) (Some 5) (Some 1));
       Timeline.end_ := None;
       Timeline.lane := Timeline.Work |};
    {| Timeline.id := "l"; Timeline.title := "Less old";
       Timeline.start := Str "0101-06-01";
       Timeline.end_ := None;
       Timeline.lane := Timeline.Work |} ]%string.


(** Data of the component with rails with a single item in the lane of its
    first key, and the item of the year 50. *)
Definition onlyItem (it : Rails.TimelineItem) : Rails.TimelineData :=
  [ ("work"%string,
     {| Rails.lane := "Work"; Rails.items := [it];
        Rails.height := 120; Rails.yTop := 40 |}) ].

Definition year50 : Rails.TimelineItem :=
  Rails.item "Year 50" "0050-06-15" "0050-07-15" "#000" None None.


(** Two lanes to which the data gives the same top. *)
Definition sameTop : Rails.TimelineData :=
  [ ("work"%string,
     {| Rails.lane := "Work"; Rails.items := [arado];
        Rails.height := 120; Rails.yTop := 40 |});
    ("school"%string,
     {| Rails.lane := "School"; Rails.items := [sameDay];
        Rails.height := 60; Rails.yTop := 40 |}) ].

(** An item of Timeline.tsx in June of the year -271820, the first whole
    year of the range of dates. *)
Definition firstYear : list Timeline.TimelineItem :=
  [ {| Timeline.id := "f"; Timeline.title := "First";
       Timeline.start :=
         Obj (@Date_ymd utcHost (Some (-271820)) (Some 5) (Some 1));
       Timeline.end_ := None;
       Timeline.lane := Timeline.Work |} ]%string.

(** A bar and a point of Timeline.tsx whose start is the Invalid Date. *)
Definition invalidBar : Timeline.TimelineItem :=
  {| Timeline.id := "i"; Timeline.title := "Invalid bar";
     Timeline.start := Obj InvalidDate;
     Timeline.end_ := Some (Str "2020-03-01");
     Timeline.lane := Timeline.Work |}%string.

Definition invalidPoint : Timeline.TimelineItem :=
  {| Timeline.id := "j"; Timeline.title := "Invalid point";
     Timeline.start := Obj InvalidDate;
     Timeline.end_ := None;
     Timeline.lane := Timeline.Work |}%string.

(** What the component with rails draws for the data of its file, on a host
    in UTC. *)
Definition drawnDATA : Rails.Svg :=
  match @Rails.SvgTimeline utcHost Rails.DATA with
  | Returned svg => svg
  | TypeError =>
      {| Rails.svgWidth := None; Rails.svgHeight := 0; Rails.ticks := [];
         Rails.groups := [] |}
  end.


(** ** Tactics *)

(** Case analysis on a month number between 0 and 11. *)
Ltac month_cases m :=
  let H := fresh "Hm" in
  assert (H : m = 0 \/ m = 1 \/ m = 2 \/ m = 3 \/ m = 4 \/ m = 5 \/ m = 6 \/
              m = 7 \/ m = 8 \/ m = 9 \/ m = 10 \/ m = 11) by lia;
  repeat (destruct H as [H | H]); subst m.

(** ** Facts of the calendar *)

Lemma DayFromYear_succ (y : Z) :
  DayFromYear (y + 1) = DayFromYear y + DaysInYear y.
Proof.
  unfold DayFromYear, DaysInYear, isLeap.
  destruct (y mod 4 =? 0) eqn:E4; destruct (y mod 100 =? 0) eqn:E100;
    destruct (y mod 400 =? 0) eqn:E400; cbn [andb orb negb];
    rewrite ?Z.eqb_eq, ?Z.eqb_neq in *;
    Z.div_mod_to_equations; lia.
Qed.

Lemma DayFromYear_mono (a b : Z) : a <= b -> DayFromYear a <= DayFromYear b.
Proof.
  intros H. unfold DayFromYear. Z.div_mod_to_equations. lia.
Qed.

Lemma YearFromDay_spec (d : Z) :
  DayFromYear (YearFromDay d) <= d < DayFromYear (YearFromDay d + 1).
Proof.
  unfold YearFromDay.
  set (y0 := 1970 + d * 400 / 146097).
  assert (Hlo : DayFromYear (y0 - 1) <= d).
  { unfold DayFromYear, y0. Z.div_mod_to_equations. lia. }
  assert (Hhi : d < DayFromYear (y0 + 2)).
  { unfold DayFromYear, y0. Z.div_mod_to_equations. lia. }
  destruct (DayFromYear (y0 + 1) <=? d) eqn:E1.
  - apply Z.leb_le in E1. replace (y0 + 1 + 1) with (y0 + 2) by lia. lia.
  - apply Z.leb_gt in E1.
    destruct (DayFromYear y0 <=? d) eqn:E0.
    + apply Z.leb_le in E0. lia.
    + apply Z.leb_gt in E0. replace (y0 - 1 + 1) with y0 by lia. lia.
Qed.

Lemma DaysInYear_cases (y : Z) :
  DaysInYear y = if isLeap y then 366 else 365.
Proof. reflexivity. Qed.

Lemma monthIndex_div (y m : Z) : 0 <= m < 12 -> monthIndex y m / 12 = y.
Proof. intros H. unfold monthIndex. Z.div_mod_to_equations. lia. Qed.

Lemma monthIndex_mod (y m : Z) : 0 <= m < 12 -> monthIndex y m mod 12 = m.
Proof. intros H. unfold monthIndex. Z.div_mod_to_equations. lia. Qed.

Lemma monthIndex_decompose (i : Z) : i = monthIndex (i / 12) (i mod 12).
Proof. unfold monthIndex. Z.div_mod_to_equations. lia. Qed.

Lemma monthStartDay_index (y m : Z) :
  0 <= m < 12 ->
  monthStartDay (monthIndex y m) = DayFromYear y + monthOffset (isLeap y) m.
Proof.
  intros H. unfold monthStartDay, MakeDay.
  rewrite monthIndex_div, monthIndex_mod by assumption.
  replace (0 + y) with y by lia. lia.
Qed.

Lemma monthOfYearDay_range (l : bool) (dy : Z) : 0 <= monthOfYearDay l dy < 12.
Proof.
  unfold monthOfYearDay.
  repeat match goal with |- context [if ?c then _ else _] => destruct c end; lia.
Qed.

Lemma monthOffset_bounds (l : bool) (dy : Z) :
  0 <= dy < (if l then 366 else 365) ->
  monthOffset l (monthOfYearDay l dy) <= dy
    < monthOffset l (monthOfYearDay l dy + 1).
Proof.
  intros H. unfold monthOfYearDay.
  destruct l;
    repeat match goal with
           | |- context [?a <? ?b] =>
               let E := fresh "E" in destruct (a <? b) eqn:E;
               [apply Z.ltb_lt in E | apply Z.ltb_ge in E]
           end; cbn; lia.
Qed.

Lemma monthOffset_step (l : bool) (m : Z) :
  0 <= m < 12 -> monthOffset l m < monthOffset l (m + 1).
Proof. intros H. month_cases m; destruct l; cbn; lia. Qed.

Lemma monthOffset_12 (l : bool) : monthOffset l 12 = if l then 366 else 365.
Proof. destruct l; reflexivity. Qed.

(** The first day of month [i + 1], seen from the year of month [i]. *)
Lemma monthStartDay_next (y m : Z) :
  0 <= m < 12 ->
  monthStartDay (monthIndex y m + 1)
  = DayFromYear y + monthOffset (isLeap y) (m + 1).
Proof.
  intros H.
  destruct (Z.eq_dec m 11) as [-> | Hne].
  - replace (monthIndex y 11 + 1) with (monthIndex (y + 1) 0)
      by (unfold monthIndex; lia).
    rewrite monthStartDay_index by lia.
    rewrite DayFromYear_succ, DaysInYear_cases.
    replace (11 + 1) with 12 by lia. rewrite monthOffset_12.
    cbn [monthOffset Z.leb Z.compare]. lia.
  - replace (monthIndex y m + 1) with (monthIndex y (m + 1))
      by (unfold monthIndex; lia).
    apply monthStartDay_index. lia.
Qed.

Lemma monthStartDay_step (i : Z) : monthStartDay i < monthStartDay (i + 1).
Proof.
  rewrite (monthIndex_decompose i) at 1 2.
  assert (H : 0 <= i mod 12 < 12) by (apply Z.mod_pos_bound; lia).
  rewrite monthStartDay_next, monthStartDay_index by assumption.
  pose proof (monthOffset_step (isLeap (i / 12)) (i mod 12) H). lia.
Qed.

Lemma monthStartDay_mono (i j : Z) :
  i <= j -> monthStartDay i <= monthStartDay j.
Proof.
  intros H. replace j with (i + Z.of_nat (Z.to_nat (j - i))) by lia.
  induction (Z.to_nat (j - i)) as [|n IH].
  - replace (i + Z.of_nat 0) with i by lia. lia.
  - replace (i + Z.of_nat (S n)) with (i + Z.of_nat n + 1) by lia.
    pose proof (monthStartDay_step (i + Z.of_nat n)). lia.
Qed.

Lemma monthStartDay_lt (i j : Z) :
  i < j -> monthStartDay i < monthStartDay j.
Proof.
  intros H. pose proof (monthStartDay_step i).
  pose proof (monthStartDay_mono (i + 1) j). lia.
Qed.

(** Every day lies in the month that the calendar assigns to it. *)
Lemma monthIndexOfDay_bounds (d : Z) :
  monthStartDay (monthIndexOfDay d) <= d
    < monthStartDay (monthIndexOfDay d + 1).
Proof.
  unfold monthIndexOfDay.
  set (y := YearFromDay d).
  pose proof (YearFromDay_spec d) as Hy. fold y in Hy.
  rewrite DayFromYear_succ, DaysInYear_cases in Hy.
  pose proof (monthOfYearDay_range (isLeap y) (d - DayFromYear y)) as Hr.
  rewrite monthStartDay_next, monthStartDay_index by assumption.
  pose proof (monthOffset_bounds (isLeap y) (d - DayFromYear y)) as Hb.
  destruct (isLeap y); lia.
Qed.

(** The month of a day is the only one whose days include it. *)
Lemma monthIndexOfDay_unique (d i : Z) :
  monthStartDay i <= d < monthStartDay (i + 1) -> monthIndexOfDay d = i.
Proof.
  intros H. pose proof (monthIndexOfDay_bounds d) as Hd.
  destruct (Z.lt_trichotomy (monthIndexOfDay d) i) as [Hlt | [Heq | Hgt]];
    [exfalso | assumption | exfalso].
  - pose proof (monthStartDay_mono (monthIndexOfDay d + 1) i). lia.
  - pose proof (monthStartDay_mono (i + 1) (monthIndexOfDay d)). lia.
Qed.

Lemma monthIndexOfDay_mono (d e : Z) :
  d <= e -> monthIndexOfDay d <= monthIndexOfDay e.
Proof.
  intros H. pose proof (monthIndexOfDay_bounds d) as Hd.
  pose proof (monthIndexOfDay_bounds e) as He.
  destruct (Z_le_gt_dec (monthIndexOfDay d) (monthIndexOfDay e)) as [|Hgt];
    [assumption | exfalso].
  pose proof (monthStartDay_mono (monthIndexOfDay e + 1) (monthIndexOfDay d)).
  lia.
Qed.

Lemma monthIndexOfDay_start (i : Z) : monthIndexOfDay (monthStartDay i) = i.
Proof.
  apply monthIndexOfDay_unique. pose proof (monthStartDay_step i). lia.
Qed.

Lemma MakeDay_index (y m dt : Z) :
  MakeDay y m dt = monthStartDay (monthIndex y m) + dt - 1.
Proof.
  unfold monthStartDay, MakeDay, monthIndex.
  replace (0 + (12 * y + m) / 12) with (y + m / 12)
    by (Z.div_mod_to_equations; lia).
  replace ((12 * y + m) mod 12) with (m mod 12)
    by (Z.div_mod_to_equations; lia).
  lia.
Qed.

Lemma YearFromDay_index (d : Z) : YearFromDay d = monthIndexOfDay d / 12.
Proof.
  unfold monthIndexOfDay. symmetry. apply monthIndex_div, monthOfYearDay_range.
Qed.

Lemma monthOfDay_index (d : Z) :
  monthOfYearDay (isLeap (YearFromDay d)) (d - DayFromYear (YearFromDay d))
  = monthIndexOfDay d mod 12.
Proof.
  unfold monthIndexOfDay. symmetry. apply monthIndex_mod, monthOfYearDay_range.
Qed.

Lemma dateOfDay_index (d : Z) :
  let y := YearFromDay d in
  d - DayFromYear y
    - monthOffset (isLeap y) (monthOfYearDay (isLeap y) (d - DayFromYear y)) + 1
  = d - monthStartDay (monthIndexOfDay d) + 1.
Proof.
  intros y. unfold monthIndexOfDay. fold y.
  rewrite monthStartDay_index by apply monthOfYearDay_range. lia.
Qed.

Lemma monthStartDay_year (y : Z) : monthStartDay (12 * y) = DayFromYear y.
Proof.
  replace (12 * y) with (monthIndex y 0) by (unfold monthIndex; lia).
  rewrite monthStartDay_index by lia. cbn. lia.
Qed.

Lemma Day_compose (D r : Z) : 0 <= r < msPerDay -> Day (D * msPerDay + r) = D.
Proof.
  intros H. unfold Day, msPerDay in *. Z.div_mod_to_equations. lia.
Qed.

Lemma TimeWithinDay_compose (D r : Z) :
  0 <= r < msPerDay -> TimeWithinDay (D * msPerDay + r) = r.
Proof.
  intros H. unfold TimeWithinDay, msPerDay in *. Z.div_mod_to_equations. lia.
Qed.

Lemma Day_bounds (t : Z) : Day t * msPerDay <= t < (Day t + 1) * msPerDay.
Proof. unfold Day, msPerDay. Z.div_mod_to_equations. lia. Qed.

Lemma TimeWithinDay_range (t : Z) : 0 <= TimeWithinDay t < msPerDay.
Proof. unfold TimeWithinDay, msPerDay. Z.div_mod_to_equations. lia. Qed.

Lemma Day_TimeWithinDay (t : Z) : t = Day t * msPerDay + TimeWithinDay t.
Proof. unfold Day, TimeWithinDay, msPerDay. Z.div_mod_to_equations. lia. Qed.

(** ** The range of dates and the year argument of the constructor *)

Lemma TimeClip_inRange (t : Z) : inRange t -> TimeClip t = Time t.
Proof.
  intros H. unfold TimeClip. apply Z.leb_le in H. now rewrite H.
Qed.

Lemma TimeClip_Time (t u : Z) : TimeClip t = Time u -> u = t /\ inRange t.
Proof.
  unfold TimeClip, inRange.
  destruct (Z.abs t <=? maxTimeValue) eqn:E; [|discriminate].
  intros [= <-]. apply Z.leb_le in E. auto.
Qed.

Lemma TimeClip_isValid (t : Z) : isValid (TimeClip t) -> TimeClip t = Time t.
Proof.
  intros H. destruct (TimeClip t) as [|u] eqn:E; [contradiction|].
  apply TimeClip_Time in E as [-> _]. reflexivity.
Qed.

Lemma inRange_between (a b t : Z) :
  inRange a -> inRange b -> a <= t <= b -> inRange t.
Proof. unfold inRange. lia. Qed.

Lemma yearArgument_literal (y : Z) : y < 0 \/ 99 < y -> yearArgument y = y.
Proof.
  intros H. unfold yearArgument.
  destruct (0 <=? y) eqn:E1; destruct (y <=? 99) eqn:E2; cbn [andb];
    try reflexivity.
  apply Z.leb_le in E1, E2. lia.
Qed.

Lemma yearArgument_legacy (y : Z) : 0 <= y <= 99 -> yearArgument y = 1900 + y.
Proof.
  intros [H1 H2]. unfold yearArgument.
  apply Z.leb_le in H1, H2. now rewrite H1, H2.
Qed.

Lemma plainYear_literal (y : Z) : plainYear y -> y < 0 \/ 99 < y.
Proof. now intros [_ H]. Qed.

Lemma plainYear_months (i : Z) :
  plainYear (i / 12) -> 12 * (-271820) <= i <= 12 * 275759 + 11.
Proof. intros [H _]. Z.div_mod_to_equations. lia. Qed.

(** The months from January -271820 to January 275760 start within the
    range of dates, by more than a day. *)
Lemma monthStartDay_range (i : Z) :
  12 * (-271820) <= i <= 12 * 275760 ->
  -99999744 <= monthStartDay i <= 99999744.
Proof.
  intros [H1 H2].
  pose proof (monthStartDay_mono _ _ H1) as Hlo.
  pose proof (monthStartDay_mono _ _ H2) as Hhi.
  rewrite monthStartDay_year in Hlo, Hhi.
  assert (E1 : DayFromYear (-271820) = -99999744) by reflexivity.
  assert (E2 : DayFromYear 275760 = 99999744) by reflexivity.
  lia.
Qed.

(** ** The helpers on valid dates, in terms of month indices *)

Section DateFacts.
Context {host : Host}.

Lemma getFullYear_Time (t : Z) : getFullYear (Time t) = Some (monthOf t / 12).
Proof.
  cbn [getFullYear]. unfold YearFromTime, monthOf.
  now rewrite YearFromDay_index.
Qed.

Lemma getMonth_Time (t : Z) : getMonth (Time t) = Some (monthOf t mod 12).
Proof.
  cbn [getMonth].
  unfold MonthFromTime, InLeapYear, DayWithinYear, YearFromTime, monthOf.
  now rewrite monthOfDay_index.
Qed.

Lemma DateFromTime_index (t : Z) :
  DateFromTime t = Day t - monthStartDay (monthIndexOfDay (Day t)) + 1.
Proof.
  unfold DateFromTime, MonthFromTime, InLeapYear, DayWithinYear, YearFromTime.
  apply (dateOfDay_index (Day t)).
Qed.

Lemma monthIndex_of_parts (i : Z) : monthIndex (i / 12) (i mod 12) = i.
Proof. symmetry. apply monthIndex_decompose. Qed.

Lemma monthStartTime_eq (i : Z) :
  monthStartTime i = monthStartDay i * 86400000 - LocalTZA.
Proof. reflexivity. Qed.

Lemma lastMsOfDay_eq (i k : Z) :
  lastMsOfDay i k = (monthStartDay i + k) * 86400000 + 86399999 - LocalTZA.
Proof. reflexivity. Qed.

Lemma LocalTZA_bounds : -86400000 < LocalTZA < 86400000.
Proof. pose proof LocalTZA_range as H. unfold msPerDay in H. lia. Qed.

Lemma inRange_eq (t : Z) :
  inRange t <-> -8640000000000000 <= t <= 8640000000000000.
Proof. unfold inRange, maxTimeValue. lia. Qed.

Lemma monthStartTime_inRange (i : Z) :
  12 * (-271820) <= i <= 12 * 275760 -> inRange (monthStartTime i).
Proof.
  intros H. pose proof (monthStartDay_range i H) as Hd.
  pose proof LocalTZA_bounds as Hz.
  rewrite inRange_eq, monthStartTime_eq. lia.
Qed.

Lemma plain_Time (t : Z) : plain (Time t) <-> plainYear (monthOf t / 12).
Proof. unfold plain. now rewrite getFullYear_Time. Qed.

Lemma plainYearb_spec (y : Z) : plainYearb y = true <-> plainYear y.
Proof.
  unfold plainYearb, plainYear.
  rewrite !andb_true_iff, orb_true_iff, !Z.leb_le, !Z.ltb_lt. tauto.
Qed.

Lemma plainb_spec (d : Date) : plainb d = true <-> plain d.
Proof.
  unfold plainb, plain. destruct (getFullYear d).
  - apply plainYearb_spec.
  - split; [discriminate | contradiction].
Qed.

Lemma plainb_plain (d : Date) : plainb d = true -> plain d.
Proof. apply plainb_spec. Qed.

Lemma plainYearb_plainYear (y : Z) : plainYearb y = true -> plainYear y.
Proof. apply plainYearb_spec. Qed.

Lemma forallb_plain (dates : list Date) :
  forallb plainb dates = true -> Forall plain dates.
Proof.
  rewrite forallb_forall, Forall_forall. intros H d Hd.
  now apply plainb_spec, H.
Qed.

Lemma plain_isValid (d : Date) : plain d -> isValid d.
Proof. destruct d; [intros [] | intros _; exact I]. Qed.

Lemma Forall_plain_isValid (dates : list Date) :
  Forall plain dates -> Forall isValid dates.
Proof. apply Forall_impl, plain_isValid. Qed.

Lemma monthOf_compose (D r : Z) :
  0 <= r < msPerDay -> monthOf (UTC (D * msPerDay + r)) = monthIndexOfDay D.
Proof.
  intros H. unfold monthOf, LocalTime, UTC.
  replace (D * msPerDay + r - LocalTZA + LocalTZA) with (D * msPerDay + r)
    by lia.
  now rewrite Day_compose.
Qed.

Lemma monthOf_monthStartTime (i : Z) : monthOf (monthStartTime i) = i.
Proof.
  unfold monthStartTime.
  replace (monthStartDay i * msPerDay) with (monthStartDay i * msPerDay + 0)
    by lia.
  rewrite monthOf_compose by (unfold msPerDay; lia).
  apply monthIndexOfDay_start.
Qed.

Lemma monthStartTime_lt (i j : Z) :
  i < j -> monthStartTime i < monthStartTime j.
Proof.
  intros H. pose proof (monthStartDay_lt i j H).
  unfold monthStartTime, UTC, msPerDay. lia.
Qed.

Lemma monthStartTime_mono (i j : Z) :
  i <= j -> monthStartTime i <= monthStartTime j.
Proof.
  intros H. pose proof (monthStartDay_mono i j H).
  unfold monthStartTime, UTC, msPerDay. lia.
Qed.

(** A time value lies in its local month. *)
Lemma monthStartTime_bounds (t : Z) :
  monthStartTime (monthOf t) <= t < monthStartTime (monthOf t + 1).
Proof.
  unfold monthStartTime, monthOf, UTC, LocalTime.
  pose proof (monthIndexOfDay_bounds (Day (t + LocalTZA))) as Hd.
  pose proof (Day_bounds (t + LocalTZA)) as Ht.
  unfold msPerDay in *. nia.
Qed.

Lemma monthOf_mono (t u : Z) : t <= u -> monthOf t <= monthOf u.
Proof.
  intros H. unfold monthOf. apply monthIndexOfDay_mono.
  unfold Day, LocalTime. apply Z.div_le_mono; unfold msPerDay; lia.
Qed.

Lemma LocalTime_UTC (v : Z) : LocalTime (UTC v) = v.
Proof. unfold LocalTime, UTC. lia. Qed.

Lemma Day_monthStartTime (i : Z) :
  Day (LocalTime (monthStartTime i)) = monthStartDay i.
Proof.
  unfold monthStartTime. rewrite LocalTime_UTC.
  replace (monthStartDay i * msPerDay) with (monthStartDay i * msPerDay + 0)
    by lia.
  apply Day_compose. unfold msPerDay. lia.
Qed.

Lemma getDate_Time (t : Z) :
  getDate (Time t)
  = Some (Day (LocalTime t) - monthStartDay (monthOf t) + 1).
Proof. cbn [getDate]. now rewrite DateFromTime_index. Qed.

(** A date of a plain year is within the range, and so are the start of its
    month and the start of the month after. *)
Lemma plain_inRange (t : Z) : plain (Time t) -> inRange t.
Proof.
  intros H. apply plain_Time, plainYear_months in H.
  pose proof (monthStartTime_bounds t) as Hb.
  apply (inRange_between (monthStartTime (monthOf t))
           (monthStartTime (monthOf t + 1)));
    [apply monthStartTime_inRange | apply monthStartTime_inRange |]; lia.
Qed.

Lemma plain_monthStartTime (i : Z) :
  plain (Time (monthStartTime i)) <-> plainYear (i / 12).
Proof. now rewrite plain_Time, monthOf_monthStartTime. Qed.

(** *** The constructor *)

Lemma Date_ymd_clip (y m : Z) :
  y < 0 \/ 99 < y ->
  Date_ymd (Some y) (Some m) (Some 1)
  = TimeClip (monthStartTime (monthIndex y m)).
Proof.
  intros H. unfold Date_ymd, Date_local.
  rewrite yearArgument_literal by assumption.
  f_equal. unfold monthStartTime. f_equal.
  rewrite MakeDay_index. unfold MakeDate, MakeTime. lia.
Qed.

(** A year from 0 to 99 is built as the year 1900 later. *)
Lemma Date_ymd_legacy (y m : Z) :
  0 <= y <= 99 ->
  Date_ymd (Some y) (Some m) (Some 1)
  = TimeClip (monthStartTime (monthIndex (1900 + y) m)).
Proof.
  intros H. unfold Date_ymd, Date_local.
  rewrite yearArgument_legacy by assumption.
  f_equal. unfold monthStartTime. f_equal.
  rewrite MakeDay_index. unfold MakeDate, MakeTime. lia.
Qed.

Lemma Date_ymd_monthStart (y m : Z) :
  y < 0 \/ 99 < y ->
  12 * (-271820) <= monthIndex y m <= 12 * 275760 ->
  Date_ymd (Some y) (Some m) (Some 1) = Time (monthStartTime (monthIndex y m)).
Proof.
  intros Hy Hr. rewrite Date_ymd_clip by assumption.
  now apply TimeClip_inRange, monthStartTime_inRange.
Qed.

Lemma startOfMonth_clip (t : Z) :
  monthOf t / 12 < 0 \/ 99 < monthOf t / 12 ->
  startOfMonth (Time t) = TimeClip (monthStartTime (monthOf t)).
Proof.
  intros H. unfold startOfMonth. rewrite getFullYear_Time, getMonth_Time.
  rewrite Date_ymd_clip by assumption. now rewrite monthIndex_of_parts.
Qed.

Lemma startOfMonth_Time (t : Z) :
  plain (Time t) -> startOfMonth (Time t) = Time (monthStartTime (monthOf t)).
Proof.
  intros H. apply plain_Time in H.
  rewrite startOfMonth_clip by now apply plainYear_literal.
  apply TimeClip_inRange, monthStartTime_inRange.
  apply plainYear_months in H. lia.
Qed.

Lemma startOfMonth_Invalid : startOfMonth InvalidDate = InvalidDate.
Proof. reflexivity. Qed.

(** *** [setMonth] keeps the day of the month and the time of the day *)

Lemma addMonths_Time (t n : Z) : addMonths (Time t) n = TimeClip (shifted t n).
Proof.
  unfold addMonths. rewrite getMonth_Time. cbn [zadd lift2 setMonth].
  f_equal. unfold shifted. f_equal. unfold MakeDate. f_equal. f_equal.
  rewrite MakeDay_index, DateFromTime_index.
  unfold YearFromTime. rewrite YearFromDay_index. fold (monthOf t).
  replace (monthIndex (monthOf t / 12) (monthOf t mod 12 + n))
    with (monthOf t + n).
  - lia.
  - pose proof (monthIndex_decompose (monthOf t)) as Hd.
    unfold monthIndex in *. lia.
Qed.

Lemma shifted_monthStart (i n : Z) :
  shifted (monthStartTime i) n = monthStartTime (i + n).
Proof.
  unfold shifted. rewrite monthOf_monthStartTime.
  assert (HL : LocalTime (monthStartTime i) = monthStartDay i * msPerDay + 0)
    by (unfold LocalTime, monthStartTime, UTC; lia).
  rewrite HL, Day_compose, TimeWithinDay_compose by (unfold msPerDay; lia).
  unfold monthStartTime. f_equal. lia.
Qed.

Lemma addMonths_monthStart (i n : Z) :
  addMonths (Time (monthStartTime i)) n = TimeClip (monthStartTime (i + n)).
Proof. now rewrite addMonths_Time, shifted_monthStart. Qed.

(** The month of a date of a plain year has a positive length: the scale
    never divides by zero. *)
Lemma month_length_pos (t : Z) :
  plain (Time t) ->
  exists s n, startOfMonth (Time t) = Time s /\
              addMonths (startOfMonth (Time t)) 1 = Time n /\ s <= t < n.
Proof.
  intros H.
  exists (monthStartTime (monthOf t)), (monthStartTime (monthOf t + 1)).
  rewrite startOfMonth_Time, addMonths_monthStart by assumption.
  apply plain_Time, plainYear_months in H.
  rewrite TimeClip_inRange by (apply monthStartTime_inRange; lia).
  repeat split; apply monthStartTime_bounds.
Qed.

Lemma monthDiff_Time (a b : Z) :
  monthDiff (Time a) (Time b) = Some (monthOf b - monthOf a).
Proof.
  unfold monthDiff. rewrite !getFullYear_Time, !getMonth_Time.
  cbn [zadd zsub zmul lift2]. f_equal.
  pose proof (monthIndex_decompose (monthOf a)).
  pose proof (monthIndex_decompose (monthOf b)).
  unfold monthIndex in *. lia.
Qed.

Lemma zdiv_Some (u v : Z) :
  v <> 0 -> zdiv (Some u) (Some v) = Some (inject_Z u / inject_Z v)%Q.
Proof.
  intros H. unfold zdiv. destruct (v =? 0) eqn:E.
  - apply Z.eqb_eq in E. contradiction.
  - reflexivity.
Qed.

Lemma zsub_Some (u v : Z) : zsub (Some u) (Some v) = Some (u - v).
Proof. reflexivity. Qed.

Lemma x_unfold (px : Q) (min d : Date) :
  x px min d
  = qadd (qmul (toQ (monthDiff (startOfMonth min) (startOfMonth d))) (Some px))
         (qmul (zdiv (zsub (Number d) (Number (startOfMonth d)))
                     (zsub (Number (addMonths (startOfMonth d) 1))
                           (Number (startOfMonth d))))
               (Some px)).
Proof. reflexivity. Qed.

(** The scale from an origin whose month starts at [s0], on a date of a
    plain year. *)
Lemma x_from (px : Q) (min : Date) (s0 t : Z) :
  startOfMonth min = Time s0 -> plain (Time t) ->
  x px min (Time t)
  = Some (inject_Z (monthOf t - monthOf s0) * px + frac t * px)%Q.
Proof.
  intros E0 H. rewrite x_unfold, E0, startOfMonth_Time by assumption.
  rewrite addMonths_monthStart, monthDiff_Time, monthOf_monthStartTime.
  apply plain_Time, plainYear_months in H.
  rewrite TimeClip_inRange by (apply monthStartTime_inRange; lia).
  change (Number (Time t)) with (Some t).
  change (Number (Time (monthStartTime (monthOf t))))
    with (Some (monthStartTime (monthOf t))).
  change (Number (Time (monthStartTime (monthOf t + 1))))
    with (Some (monthStartTime (monthOf t + 1))).
  rewrite !zsub_Some, zdiv_Some.
  - reflexivity.
  - pose proof (monthStartTime_lt (monthOf t) (monthOf t + 1)). lia.
Qed.

Lemma x_Time (px : Q) (m0 t : Z) :
  plain (Time m0) -> plain (Time t) ->
  x px (Time m0) (Time t)
  = Some (inject_Z (monthOf t - monthOf m0) * px + frac t * px)%Q.
Proof.
  intros H0 H.
  rewrite (x_from px (Time m0) (monthStartTime (monthOf m0)) t)
    by (try apply startOfMonth_Time; assumption).
  now rewrite monthOf_monthStartTime.
Qed.

Lemma x_coord (px : Q) (m0 t : Z) :
  plain (Time m0) -> plain (Time t) ->
  x px (Time m0) (Time t) = Some (coord px m0 t).
Proof. apply x_Time. Qed.

(** Every coordinate taken from an invalid origin, and the coordinate of an
    invalid date, is NaN. *)
Lemma x_invalid_origin (px : Q) (d : Date) : x px InvalidDate d = None.
Proof.
  rewrite x_unfold, startOfMonth_Invalid.
  destruct (startOfMonth d); reflexivity.
Qed.

Lemma x_invalid_date (px : Q) (min : Date) : x px min InvalidDate = None.
Proof.
  rewrite x_unfold, startOfMonth_Invalid.
  destruct (startOfMonth min); reflexivity.
Qed.

End DateFacts.

(** ** The scale is monotone *)

Section ScaleFacts.
Context {host : Host}.

Lemma month_length_Q (t : Z) :
  (0 < inject_Z (monthStartTime (monthOf t + 1) - monthStartTime (monthOf t)))%Q.
Proof.
  change 0%Q with (inject_Z 0). rewrite <- Zlt_Qlt.
  pose proof (monthStartTime_lt (monthOf t) (monthOf t + 1)). lia.
Qed.

Lemma frac_nonneg (t : Z) : (0 <= frac t)%Q.
Proof.
  unfold frac. apply Qle_shift_div_l; [apply month_length_Q|].
  rewrite Qmult_0_l. change 0%Q with (inject_Z 0). rewrite <- Zle_Qle.
  pose proof (monthStartTime_bounds t). lia.
Qed.

Lemma frac_lt_1 (t : Z) : (frac t < 1)%Q.
Proof.
  unfold frac. apply Qlt_shift_div_r; [apply month_length_Q|].
  rewrite Qmult_1_l. rewrite <- Zlt_Qlt.
  pose proof (monthStartTime_bounds t). lia.
Qed.

Lemma frac_mono (t u : Z) :
  monthOf t = monthOf u -> t <= u -> (frac t <= frac u)%Q.
Proof.
  intros HM H. unfold frac. rewrite HM. unfold Qdiv.
  apply Qmult_le_compat_r.
  - rewrite <- Zle_Qle. lia.
  - apply Qinv_le_0_compat, Qlt_le_weak. rewrite <- HM. apply month_length_Q.
Qed.

Lemma frac_monthStart (i : Z) : (frac (monthStartTime i) == 0)%Q.
Proof.
  unfold frac. rewrite monthOf_monthStartTime, Z.sub_diag.
  unfold Qdiv. apply Qmult_0_l.
Qed.

Lemma coord_mono (px : Q) (m0 t u : Z) :
  (0 <= px)%Q -> t <= u -> (coord px m0 t <= coord px m0 u)%Q.
Proof.
  intros Hpx H. unfold coord.
  pose proof (monthOf_mono t u H) as HM.
  destruct (Z.eq_dec (monthOf t) (monthOf u)) as [E | NE].
  - pose proof (frac_mono t u E H) as Hf. rewrite E.
    apply Qplus_le_r. now apply Qmult_le_compat_r.
  - assert (HZ : (monthOf t - monthOf m0) + 1 <= monthOf u - monthOf m0)
      by lia.
    rewrite Zle_Qle, inject_Z_plus in HZ.
    pose proof (frac_nonneg u). pose proof (frac_lt_1 t).
    pose proof (frac_nonneg t).
    change (inject_Z 1) with 1%Q in HZ.
    set (k1 := inject_Z (monthOf t - monthOf m0)) in *.
    set (k2 := inject_Z (monthOf u - monthOf m0)) in *.
    set (f1 := frac t) in *. set (f2 := frac u) in *.
    clearbody k1 k2 f1 f2. nra.
Qed.


Lemma coord_origin (px : Q) (i : Z) :
  (coord px (monthStartTime i) (monthStartTime i) == 0)%Q.
Proof.
  unfold coord. rewrite Z.sub_diag, frac_monthStart.
  change (inject_Z 0) with 0%Q. ring.
Qed.

Lemma coord_monthStart (px : Q) (m0 i : Z) :
  (coord px m0 (monthStartTime i) == inject_Z (i - monthOf m0) * px)%Q.
Proof.
  unfold coord. rewrite frac_monthStart, monthOf_monthStartTime. ring.
Qed.

Lemma x_origin (px : Q) (i : Z) :
  plainYear (i / 12) ->
  num_eq (x px (Time (monthStartTime i)) (Time (monthStartTime i))) 0.
Proof.
  intros H. apply plain_monthStartTime in H.
  rewrite x_coord by assumption. apply coord_origin.
Qed.

(** A month start is a whole number of months from the origin. *)
Lemma x_monthStart (px : Q) (m0 i : Z) :
  plain (Time m0) -> plainYear (i / 12) ->
  num_eq (x px (Time m0) (Time (monthStartTime i)))
         (inject_Z (i - monthOf m0) * px).
Proof.
  intros H0 H. apply plain_monthStartTime in H.
  rewrite x_coord by assumption. apply coord_monthStart.
Qed.

End ScaleFacts.

(** ** Domain resolution *)

Lemma Math_min_NaN (l : list (option Z)) : In None l -> Math_min l = ENaN.
Proof.
  induction l as [|v r IH]; [contradiction|].
  intros [-> | Hin]; [reflexivity|].
  cbn [Math_min]. rewrite (IH Hin). now destruct v.
Qed.

Lemma Math_max_NaN (l : list (option Z)) : In None l -> Math_max l = ENaN.
Proof.
  induction l as [|v r IH]; [contradiction|].
  intros [-> | Hin]; [reflexivity|].
  cbn [Math_max]. rewrite (IH Hin). now destruct v.
Qed.

Section DomainFacts.
Context {host : Host}.

(** One invalid date among the dates leaves both bounds invalid. *)
Lemma domainOfDates_invalid (dates : list Date) (padMonths : Z) :
  In InvalidDate dates ->
  domainOfDates dates padMonths
  = {| min := InvalidDate; max := InvalidDate |}.
Proof.
  intros Hin. unfold domainOfDates.
  assert (HN : In None (map Number dates)).
  { apply in_map_iff. now exists InvalidDate. }
  now rewrite (Math_min_NaN _ HN), (Math_max_NaN _ HN).
Qed.


Lemma Math_min_Time (dates : list Date) :
  dates <> [] -> Forall isValid dates ->
  exists m, Math_min (map Number dates) = Finite m /\
            In (Time m) dates /\
            forall t, In (Time t) dates -> m <= t.
Proof.
  induction dates as [|d r IH]; [congruence|].
  intros _ HF. inversion HF as [|? ? Hd Hr]; subst.
  destruct d as [|t0]; [contradiction|].
  destruct r as [|d' r'].
  - exists t0. split; [reflexivity|]. split; [now left|].
    intros t [E | []]. injection E as ->. lia.
  - destruct (IH ltac:(congruence) Hr) as (m & Em & Im & Hm).
    exists (Z.min t0 m). split; [|split].
    + change (map Number (Time t0 :: d' :: r'))
        with (Some t0 :: map Number (d' :: r')).
      cbn [Math_min]. now rewrite Em.
    + destruct (Z.min_spec t0 m) as [[_ ->] | [_ ->]];
        [now left | now right].
    + intros t [E | Hin].
      * injection E as ->. lia.
      * specialize (Hm t Hin). lia.
Qed.

Lemma Math_max_Time (dates : list Date) :
  dates <> [] -> Forall isValid dates ->
  exists m, Math_max (map Number dates) = Finite m /\
            In (Time m) dates /\
            forall t, In (Time t) dates -> t <= m.
Proof.
  induction dates as [|d r IH]; [congruence|].
  intros _ HF. inversion HF as [|? ? Hd Hr]; subst.
  destruct d as [|t0]; [contradiction|].
  destruct r as [|d' r'].
  - exists t0. split; [reflexivity|]. split; [now left|].
    intros t [E | []]. injection E as ->. lia.
  - destruct (IH ltac:(congruence) Hr) as (m & Em & Im & Hm).
    exists (Z.max t0 m). split; [|split].
    + change (map Number (Time t0 :: d' :: r'))
        with (Some t0 :: map Number (d' :: r')).
      cbn [Math_max]. now rewrite Em.
    + destruct (Z.max_spec t0 m) as [[_ ->] | [_ ->]];
        [now right | now left].
    + intros t [E | Hin].
      * injection E as ->. lia.
      * specialize (Hm t Hin). lia.
Qed.

Lemma startOfYear_clip (t : Z) :
  monthOf t / 12 < 0 \/ 99 < monthOf t / 12 ->
  startOfYear (Time t) = TimeClip (monthStartTime (12 * (monthOf t / 12))).
Proof.
  intros H. unfold startOfYear. rewrite getFullYear_Time.
  rewrite Date_ymd_clip by assumption.
  unfold monthIndex. do 2 f_equal. lia.
Qed.

Lemma startOfYear_Time (t : Z) :
  plain (Time t) ->
  startOfYear (Time t) = Time (monthStartTime (12 * (monthOf t / 12))).
Proof.
  intros H. apply plain_Time in H.
  rewrite startOfYear_clip by now apply plainYear_literal.
  apply TimeClip_inRange, monthStartTime_inRange.
  destruct H as [H _]. lia.
Qed.

Lemma startOfYear_le (t : Z) : monthStartTime (12 * (monthOf t / 12)) <= t.
Proof.
  pose proof (monthStartTime_bounds t) as Hb.
  pose proof (monthStartTime_mono (12 * (monthOf t / 12)) (monthOf t)) as Hm.
  assert (12 * (monthOf t / 12) <= monthOf t)
    by (Z.div_mod_to_equations; lia).
  lia.
Qed.

(** December has 31 days. *)
Lemma december_length (y : Z) :
  monthStartDay (12 * y + 12) = monthStartDay (12 * y + 11) + 31.
Proof.
  replace (12 * y + 12) with (monthIndex y 11 + 1) by (unfold monthIndex; lia).
  replace (12 * y + 11) with (monthIndex y 11) by (unfold monthIndex; lia).
  rewrite monthStartDay_next, monthStartDay_index by lia.
  destruct (isLeap y); cbn; lia.
Qed.

(** The last millisecond of a year is the one before the next year. *)
Lemma lastMsOfDay_next (y : Z) :
  lastMsOfDay (12 * y + 11) 30 = monthStartTime (12 * y + 12) - 1.
Proof.
  rewrite lastMsOfDay_eq, monthStartTime_eq, december_length. lia.
Qed.

Lemma lastMsOfDay_inRange (y : Z) :
  -271820 <= y <= 275759 -> inRange (lastMsOfDay (12 * y + 11) 30).
Proof.
  intros H. rewrite lastMsOfDay_next.
  pose proof (monthStartTime_lt (12 * y + 11) (12 * y + 12) ltac:(lia)).
  apply (inRange_between (monthStartTime (12 * y + 11))
           (monthStartTime (12 * y + 12)));
    [apply monthStartTime_inRange | apply monthStartTime_inRange |]; lia.
Qed.

Lemma endOfYear_clip (t : Z) :
  monthOf t / 12 < 0 \/ 99 < monthOf t / 12 ->
  endOfYear (Time t) = TimeClip (lastMsOfDay (12 * (monthOf t / 12) + 11) 30).
Proof.
  intros H. unfold endOfYear. rewrite getFullYear_Time. cbn [Date_local].
  rewrite yearArgument_literal by assumption.
  unfold lastMsOfDay. do 2 f_equal. rewrite MakeDay_index.
  unfold MakeDate, MakeTime, monthIndex, msPerDay, msPerHour, msPerMinute,
    msPerSecond. lia.
Qed.

Lemma endOfYear_Time (t : Z) :
  plain (Time t) ->
  endOfYear (Time t) = Time (lastMsOfDay (12 * (monthOf t / 12) + 11) 30).
Proof.
  intros H. apply plain_Time in H.
  rewrite endOfYear_clip by now apply plainYear_literal.
  apply TimeClip_inRange, lastMsOfDay_inRange. now destruct H.
Qed.

Lemma endOfYear_ge (t : Z) : t <= lastMsOfDay (12 * (monthOf t / 12) + 11) 30.
Proof.
  pose proof (monthStartTime_bounds t) as Hb.
  pose proof (monthStartTime_mono (monthOf t + 1)
                (12 * (monthOf t / 12) + 12)) as Hm.
  assert (monthOf t + 1 <= 12 * (monthOf t / 12) + 12)
    by (Z.div_mod_to_equations; lia).
  rewrite lastMsOfDay_next. lia.
Qed.

Lemma monthOf_lastMsOfDay (y : Z) :
  monthOf (lastMsOfDay (12 * y + 11) 30) = 12 * y + 11.
Proof.
  unfold lastMsOfDay. rewrite monthOf_compose by (unfold msPerDay; lia).
  apply monthIndexOfDay_unique.
  replace (12 * y + 11 + 1) with (12 * y + 12) by lia.
  rewrite december_length. lia.
Qed.

Lemma shifted_lastMsOfDay (y n : Z) :
  shifted (lastMsOfDay (12 * y + 11) 30) n = lastMsOfDay (12 * y + 11 + n) 30.
Proof.
  unfold shifted.
  assert (HL : LocalTime (lastMsOfDay (12 * y + 11) 30)
               = (monthStartDay (12 * y + 11) + 30) * msPerDay
                 + (msPerDay - 1))
    by (unfold LocalTime, lastMsOfDay, UTC; lia).
  rewrite HL, monthOf_lastMsOfDay, Day_compose, TimeWithinDay_compose
    by (unfold msPerDay; lia).
  unfold lastMsOfDay. do 3 f_equal. lia.
Qed.

Lemma addMonths_lastMsOfDay (y n : Z) :
  addMonths (Time (lastMsOfDay (12 * y + 11) 30)) n
  = TimeClip (lastMsOfDay (12 * y + 11 + n) 30).
Proof. now rewrite addMonths_Time, shifted_lastMsOfDay. Qed.

Lemma lastMsOfDay_mono (i j : Z) :
  i <= j -> lastMsOfDay i 30 <= lastMsOfDay j 30.
Proof.
  intros H. pose proof (monthStartDay_mono i j H).
  rewrite !lastMsOfDay_eq. lia.
Qed.

Lemma Domain_min_mk (a b : Date) : min {| min := a; max := b |} = a.
Proof. reflexivity. Qed.

Lemma Domain_max_mk (a b : Date) : max {| min := a; max := b |} = b.
Proof. reflexivity. Qed.

Lemma domainOfDates_unfold (dates : list Date) (padMonths : Z) :
  domainOfDates dates padMonths
  = {| min := addMonths (startOfYear (Date_of_number
                                        (Math_min (map Number dates))))
                        (- padMonths);
       max := addMonths (endOfYear (Date_of_number
                                      (Math_max (map Number dates))))
                        padMonths |}.
Proof. reflexivity. Qed.

(** The bounds of the resolved domain of dates of plain years, for every
    padding at once: from the earliest date [lo] and the latest date [hi],
    each bound through the range check. *)
Lemma domainOfDates_bounds (dates : list Date) :
  dates <> [] -> Forall plain dates ->
  exists lo hi,
    lo <= hi /\ plain (Time lo) /\ plain (Time hi) /\
    (forall t, In (Time t) dates -> lo <= t <= hi) /\
    forall padMonths,
      min (domainOfDates dates padMonths)
      = TimeClip (monthStartTime (12 * (monthOf lo / 12) - padMonths)) /\
      max (domainOfDates dates padMonths)
      = TimeClip (lastMsOfDay (12 * (monthOf hi / 12) + 11 + padMonths) 30).
Proof.
  intros Hne HP. pose proof (Forall_plain_isValid _ HP) as HF.
  destruct (Math_min_Time dates Hne HF) as (lo & Elo & Ilo & Hlo).
  destruct (Math_max_Time dates Hne HF) as (hi & Ehi & Ihi & Hhi).
  rewrite Forall_forall in HP.
  pose proof (HP _ Ilo) as Plo. pose proof (HP _ Ihi) as Phi.
  exists lo, hi. split; [|split; [|split; [|split]]]; try assumption.
  - specialize (Hlo hi Ihi). lia.
  - intros t Hin. specialize (Hlo t Hin). specialize (Hhi t Hin). lia.
  - intros pad. rewrite domainOfDates_unfold, Domain_min_mk, Domain_max_mk.
    rewrite Elo, Ehi. cbn [Date_of_number].
    rewrite (TimeClip_inRange lo), (TimeClip_inRange hi)
      by (apply plain_inRange; assumption).
    rewrite startOfYear_Time, endOfYear_Time by assumption.
    rewrite addMonths_monthStart, addMonths_lastMsOfDay.
    split; reflexivity.
Qed.

(** Domain containment, on the dates collected from the items, when the
    padding leaves both bounds within the range of dates. *)
Lemma domainOfDates_contains (dates : list Date) (padMonths : Z) :
  Forall plain dates -> 0 <= padMonths ->
  isValid (min (domainOfDates dates padMonths)) ->
  isValid (max (domainOfDates dates padMonths)) ->
  forall d, In d dates ->
            date_le (min (domainOfDates dates padMonths)) d /\
            date_le d (max (domainOfDates dates padMonths)).
Proof.
  intros HP Hpad Vmin Vmax d Hin.
  assert (Hne : dates <> []) by (destruct dates; [contradiction | discriminate]).
  destruct (domainOfDates_bounds dates Hne HP)
    as (lo & hi & _ & _ & _ & Hb & E).
  destruct (E padMonths) as [Emin Emax].
  rewrite Emin in Vmin. rewrite Emax in Vmax. rewrite Emin, Emax.
  rewrite (TimeClip_isValid _ Vmin), (TimeClip_isValid _ Vmax).
  rewrite Forall_forall in HP. specialize (HP d Hin).
  destruct d as [|t]; [contradiction|]. specialize (Hb t Hin).
  cbn [date_le].
  pose proof (startOfYear_le lo). pose proof (endOfYear_ge hi).
  pose proof (monthStartTime_mono (12 * (monthOf lo / 12) - padMonths)
                (12 * (monthOf lo / 12))).
  pose proof (lastMsOfDay_mono (12 * (monthOf hi / 12) + 11)
                (12 * (monthOf hi / 12) + 11 + padMonths)).
  lia.
Qed.

(** Without padding the bounds are the start of the year of the earliest
    date and the end of the year of the latest, both within the range. *)
Lemma domainOfDates_unpadded (dates : list Date) :
  dates <> [] -> Forall plain dates ->
  exists lo hi,
    lo <= hi /\ plain (Time lo) /\ plain (Time hi) /\
    (forall t, In (Time t) dates -> lo <= t <= hi) /\
    min (domainOfDates dates 0)
    = Time (monthStartTime (12 * (monthOf lo / 12))) /\
    max (domainOfDates dates 0)
    = Time (lastMsOfDay (12 * (monthOf hi / 12) + 11) 30).
Proof.
  intros Hne HP.
  destruct (domainOfDates_bounds dates Hne HP)
    as (lo & hi & Hlh & Plo & Phi & Hb & E).
  exists lo, hi. repeat (split; [assumption|]).
  destruct (E 0) as [Emin Emax]. rewrite Emin, Emax, Z.sub_0_r, Z.add_0_r.
  apply plain_Time in Plo, Phi. destruct Plo as [Plo _], Phi as [Phi _].
  split; apply TimeClip_inRange;
    [apply monthStartTime_inRange; lia | now apply lastMsOfDay_inRange].
Qed.

(** Without dates both bounds are the Invalid Date, whatever the padding. *)
Lemma domainOfDates_nil (padMonths : Z) :
  domainOfDates [] padMonths = {| min := InvalidDate; max := InvalidDate |}.
Proof. reflexivity. Qed.

End DomainFacts.
(** ** The year loop *)

Lemma yearRange_succ (a : Z) (n : nat) :
  yearRange a (S n) = a :: yearRange (a + 1) n.
Proof.
  unfold yearRange. cbn [seq map]. f_equal; [lia|].
  rewrite <- seq_shift, map_map. apply map_ext. intros i. lia.
Qed.

(** With fuel for every year up to [upto] the loop leaves by its test. *)
Lemma yearsLoop_range (fuel : nat) (upto : Z) :
  forall (y : Z) (out : list Z),
    (Z.to_nat (upto - y + 1) <= fuel)%nat ->
    yearsLoop fuel y upto out = out ++ yearRange y (Z.to_nat (upto - y + 1)).
Proof.
  induction fuel as [|fuel IH]; intros y out Hf.
  - replace (Z.to_nat (upto - y + 1)) with O by lia.
    cbn. now rewrite app_nil_r.
  - cbn [yearsLoop]. destruct (y <=? upto) eqn:E.
    + apply Z.leb_le in E. rewrite IH by lia.
      replace (Z.to_nat (upto - y + 1))
        with (S (Z.to_nat (upto - (y + 1) + 1))) by lia.
      rewrite yearRange_succ, <- app_assoc. reflexivity.
    + apply Z.leb_gt in E.
      replace (Z.to_nat (upto - y + 1)) with O by lia.
      cbn. now rewrite app_nil_r.
Qed.

Lemma yearRange_In (a : Z) (n : nat) (y : Z) :
  In y (yearRange a n) <-> a <= y < a + Z.of_nat n.
Proof.
  unfold yearRange. rewrite in_map_iff. split.
  - intros (i & <- & Hi). apply in_seq in Hi. lia.
  - intros H. exists (Z.to_nat (y - a)). split; [lia|].
    apply in_seq. lia.
Qed.


Section YearTicks.
Context {host : Host}.

Lemma yearsBetween_Time (a b : Z) :
  yearsBetween (Time a) (Time b)
  = yearRange (YearFromTime (LocalTime a))
      (Z.to_nat (YearFromTime (LocalTime b) - YearFromTime (LocalTime a) + 1)).
Proof.
  unfold yearsBetween. cbn [getFullYear].
  now rewrite yearsLoop_range by lia.
Qed.

Lemma YearFromTime_monthOf (t : Z) :
  YearFromTime (LocalTime t) = monthOf t / 12.
Proof. unfold YearFromTime, monthOf. apply YearFromDay_index. Qed.





End YearTicks.

(** ** Widths of bars *)






Section BarFacts.
Context {host : Host}.





End BarFacts.

(** ** Properties of the layout *)

Section Layout.
Context {host : Host}.


Lemma Timeline_dates_In (data : list Timeline.TimelineItem)
  (it : Timeline.TimelineItem) :
  In it data ->
  In (toDate (Timeline.start it)) (Timeline.itemDates data) /\
  In (Timeline.endOrStart it) (Timeline.itemDates data).
Proof.
  intros Hin. unfold Timeline.itemDates.
  split; apply in_flat_map; exists it; (split; [assumption|]); cbn; auto.
Qed.

Lemma Rails_dates_In (data : Rails.TimelineData) (lane : Rails.LaneData)
  (it : Rails.TimelineItem) :
  In lane (Rails.Object_values data) -> In it (Rails.items lane) ->
  In (toDate (Str (Rails.start it))) (Rails.itemDates data) /\
  In (toDate (Str (Rails.end_ it))) (Rails.itemDates data).
Proof.
  intros Hl Hin. unfold Rails.itemDates.
  split; apply in_flat_map; exists lane; (split; [assumption|]);
    apply in_flat_map; exists it; (split; [assumption|]); cbn; auto.
Qed.

Lemma In_not_nil {A : Type} (v : A) (l : list A) : In v l -> l <> [].
Proof. destruct l; [contradiction | discriminate]. Qed.

(** C2, as the code has it.  The resolved domain contains every item, its
    minimum at or before the start of each item and its maximum at or after
    its end (its start, when it has no end), for every non-negative padding
    that leaves both bounds valid dates, when the dates of the items are
    dates of plain years: years from -271820 to 275759 other than 0 to 99.
    First for the list of items of Timeline.tsx, then for the lanes of the
    component with rails, whose items all have an end and where nothing
    stands in for an end that is no date: such an end leaves both bounds
    the Invalid Date. *)
Theorem domain_contains_items :
  (forall (data : list Timeline.TimelineItem) (padMonths : Z),
      0 <= padMonths ->
      Forall plain (Timeline.itemDates data) ->
      isValid (min (Timeline.domainFromData data padMonths)) ->
      isValid (max (Timeline.domainFromData data padMonths)) ->
      forall it, In it data ->
        date_le (min (Timeline.domainFromData data padMonths))
                (toDate (Timeline.start it)) /\
        date_le (Timeline.endOrStart it)
                (max (Timeline.domainFromData data padMonths))) /\
  (forall (data : Rails.TimelineData) (padMonths : Z),
      0 <= padMonths ->
      Forall plain (Rails.itemDates data) ->
      isValid (min (Rails.domainFromData data padMonths)) ->
      isValid (max (Rails.domainFromData data padMonths)) ->
      forall lane it,
        In lane (Rails.Object_values data) -> In it (Rails.items lane) ->
        date_le (min (Rails.domainFromData data padMonths))
                (toDate (Str (Rails.start it))) /\
        date_le (toDate (Str (Rails.end_ it)))
                (max (Rails.domainFromData data padMonths))) /\
  (forall (data : Rails.TimelineData) (padMonths : Z) (lane : Rails.LaneData)
          (it : Rails.TimelineItem),
      In lane (Rails.Object_values data) -> In it (Rails.items lane) ->
      toDate (Str (Rails.end_ it)) = InvalidDate ->
      Rails.domainFromData data padMonths
      = {| min := InvalidDate; max := InvalidDate |}).
Proof.
  split; [|split].
  - intros data pad Hpad HP Vmin Vmax it Hin.
    destruct (Timeline_dates_In data it Hin) as [Hs He].
    unfold Timeline.domainFromData in *.
    split.
    + apply (domainOfDates_contains _ pad HP Hpad Vmin Vmax _ Hs).
    + apply (domainOfDates_contains _ pad HP Hpad Vmin Vmax _ He).
  - intros data pad Hpad HP Vmin Vmax lane it Hl Hin.
    destruct (Rails_dates_In data lane it Hl Hin) as [Hs He].
    unfold Rails.domainFromData in *.
    split.
    + apply (domainOfDates_contains _ pad HP Hpad Vmin Vmax _ Hs).
    + apply (domainOfDates_contains _ pad HP Hpad Vmin Vmax _ He).
  - intros data pad lane it Hl Hin Einv.
    destruct (Rails_dates_In data lane it Hl Hin) as [_ He].
    rewrite Einv in He. now apply domainOfDates_invalid.
Qed.

(** C3, as the code has it.  Without items domain resolution signals
    nothing: it returns a domain whose two bounds are the Invalid Date,
    whatever the padding. *)
Theorem empty_domain_is_invalid (data : Rails.TimelineData) (padMonths : Z) :
  Rails.itemDates data = [] ->
  Rails.domainFromData data padMonths
  = {| min := InvalidDate; max := InvalidDate |}.
Proof.
  intros E. unfold Rails.domainFromData. rewrite E. apply domainOfDates_nil.
Qed.







Lemma plainYear_2016 : plainYear (monthIndex 2016 0 / 12).
Proof. apply plainYearb_plainYear. reflexivity. Qed.

Lemma plainYear_2020 : plainYear (monthIndex 2020 4 / 12).
Proof. apply plainYearb_plainYear. reflexivity. Qed.

(** C7. With 14 pixels per month and a domain that starts on 2016-01-01,
    the date 2020-05-01 lies 52 months from the origin and is projected to
    52 * 14 = 728; so it is for the data of the component, read in UTC. *)
Theorem project_2020_05_01 :
  (monthDiff (Date_ymd (Some 2016) (Some 0) (Some 1))
             (Date_ymd (Some 2020) (Some 4) (Some 1)) = Some 52 /\
   num_eq (x 14 (Date_ymd (Some 2016) (Some 0) (Some 1))
                (Date_ymd (Some 2020) (Some 4) (Some 1)))
          728) /\
  (min (@Rails.domainFromData utcHost Rails.DATA Rails.PAD_MONTHS)
   = @Date_ymd utcHost (Some 2016) (Some 0) (Some 1) /\
   num_eq (@x utcHost Rails.PX_PER_MONTH
             (min (@Rails.domainFromData utcHost Rails.DATA Rails.PAD_MONTHS))
             (@toDate utcHost (Str "2020-05-01")))
          728).
Proof.
  assert (E16 : Date_ymd (Some 2016) (Some 0) (Some 1)
                = Time (monthStartTime (monthIndex 2016 0))).
  { apply Date_ymd_monthStart; [right | unfold monthIndex]; lia. }
  assert (E20 : Date_ymd (Some 2020) (Some 4) (Some 1)
                = Time (monthStartTime (monthIndex 2020 4))).
  { apply Date_ymd_monthStart; [right | unfold monthIndex]; lia. }
  split; [split|].
  - rewrite E16, E20, monthDiff_Time, !monthOf_monthStartTime.
    reflexivity.
  - rewrite E16, E20.
    pose proof (x_monthStart 14 (monthStartTime (monthIndex 2016 0))
                  (monthIndex 2020 4)
                  (proj2 (plain_monthStartTime _) plainYear_2016)
                  plainYear_2020) as H.
    destruct (x 14 (Time (monthStartTime (monthIndex 2016 0)))
                (Time (monthStartTime (monthIndex 2020 4)))) as [q|];
      [|contradiction].
    cbn [num_eq] in *. rewrite H, monthOf_monthStartTime. reflexivity.
  - split; vm_compute; reflexivity.
Qed.

(** The string of a date is read as midnight UTC: three hours east of UTC
    it falls three hours into its local month, of 31 days, and is projected
    that share of a month beyond 728. *)
Remark project_string_east_of_utc :
  num_eq (@x eastHost 14 (@Date_ymd eastHost (Some 2016) (Some 0) (Some 1))
            (@toDate eastHost (Str "2020-05-01")))
         (728 + (3 # 744) * 14).
Proof. vm_compute. reflexivity. Qed.


Lemma mapi_from_nth {A B : Type} (f : A -> Z -> B) (l : list A) :
  forall (k : Z) (i : nat) (g : B),
    nth_error (mapi_from f k l) i = Some g ->
    exists v, nth_error l i = Some v /\ g = f v (k + Z.of_nat i).
Proof.
  induction l as [|v r IH]; intros k i g H.
  - destruct i; discriminate.
  - destruct i as [|i]; cbn in H.
    + injection H as <-. exists v. split; [reflexivity|]. f_equal. lia.
    + destruct (IH (k + 1) i g H) as (w & Hw & ->).
      exists w. split; [assumption|]. f_equal. lia.
Qed.

Lemma Qsum_const {A : Type} (c : Q) (l : list A) :
  (Qsum (map (fun _ => c) l) == inject_Z (Z.of_nat (List.length l)) * c)%Q.
Proof.
  induction l as [|v r IH].
  - cbn. ring.
  - cbn [map Qsum fold_right List.length]. fold (Qsum (map (fun _ => c) r)).
    rewrite IH, Nat2Z.inj_succ, <- Z.add_1_r, inject_Z_plus.
    change (inject_Z 1) with 1%Q. ring.
Qed.

(** C9, as the code has it.  In Timeline.tsx the top of the lane of index
    [idx] is the height of the ruler plus the heights and gaps of the lanes
    before it, and the group of the lane holds one shape for each item of
    the lane, centered at the top of the lane plus half the row height.  In
    the component with rails the top of a lane is the [yTop] that the data
    gives to the lane, whatever the lanes before it; each of its items is
    centered at that top plus half the row height, or plus the row height
    and the rail offset when the item is on rail 1; and the tops that the
    data of the file gives are the height of the ruler plus the heights of
    the lanes before. *)
Theorem lane_layout :
  (forall (laneHeight laneGap pxPerMonth : Q) (min : Date)
          (data : list Timeline.TimelineItem) (lanes : list Timeline.LaneId)
          (idx : nat) (g : LaneGroup),
      nth_error (mapi (Timeline.renderLane laneHeight laneGap pxPerMonth
                         min data) lanes) idx = Some g ->
      (translateY g
       == 40 + Qsum (map (fun _ => laneHeight + laneGap) (firstn idx lanes)))%Q
      /\ exists laneId,
           nth_error lanes idx = Some laneId /\
           Forall2 (fun (it : Timeline.TimelineItem) c =>
                      (c == translateY g + laneHeight / 2)%Q)
                   (filter (fun d =>
                              Timeline.LaneId_eqb (Timeline.lane d) laneId)
                           data)
                   (canvasCenters g)) /\
  (forall (min : Date) (lane : Rails.LaneData),
      translateY (Rails.renderLane min lane) = Rails.yTop lane /\
      Forall2 (fun it c =>
                 (c == Rails.yTop lane
                       + match Rails.rail it with
                         | Some Rails.Rail1 =>
                             Rails.LANE_HEIGHT + Rails.RAIL_OFFSET
                         | _ => Rails.LANE_HEIGHT / 2
                         end)%Q)
              (Rails.items lane)
              (canvasCenters (Rails.renderLane min lane))) /\
  (forall (i : nat) (lane : Rails.LaneData),
      nth_error (Rails.Object_values Rails.DATA) i = Some lane ->
      (Rails.yTop lane
       == Rails.RULER_HEIGHT
          + Qsum (map Rails.height
                      (firstn i (Rails.Object_values Rails.DATA))))%Q).
Proof.
  split; [|split].
  - intros lh lg px min data lanes idx g Hg.
    apply mapi_from_nth in Hg as (v & Hv & ->).
    unfold Timeline.renderLane. cbn [translateY]. split.
    + rewrite Qsum_const, length_firstn.
      assert (idx < List.length lanes)%nat
        by (apply nth_error_Some; congruence).
      rewrite Nat.min_l by lia. rewrite Z.add_0_l. reflexivity.
    + exists v. split; [assumption|].
      unfold canvasCenters. cbn [shapes translateY]. rewrite map_map.
      induction (filter _ data) as [|it r IH]; cbn [map]; constructor;
        [|assumption].
      apply Qplus_inj_l. unfold Timeline.renderItem.
      destruct (Timeline.endDate it); cbn [centerY]; [field | reflexivity].
  - intros min lane. split; [reflexivity|].
    unfold canvasCenters, Rails.renderLane.
    cbn [shapes translateY]. rewrite map_map.
    induction (Rails.items lane) as [|it r IH]; cbn [map]; constructor;
      [|assumption].
    apply Qplus_inj_l. unfold Rails.renderItem. cbn [centerY].
    destruct (Rails.rail it) as [[|]|]; field.
  - intros i lane H.
    destruct i as [|[|[|i]]]; cbn in H;
      [| | |destruct i; discriminate]; injection H as <-; reflexivity.
Qed.

(** C10, as the code has it.  The minimum of the resolved domain of a
    non-empty collection of items is the first instant of a month, whatever
    the padding: it is projected to 0, and no date from it on is projected
    below 0; this when the dates of the items, the minimum itself and the
    date projected are dates of plain years.  (The tick of the year of the
    minimum is such a date only when the minimum is a first of January.) *)
Theorem domain_origin (data : Rails.TimelineData) (padMonths : Z) :
  Rails.itemDates data <> [] ->
  Forall plain (Rails.itemDates data) ->
  plain (min (Rails.domainFromData data padMonths)) ->
  startOfMonth (min (Rails.domainFromData data padMonths))
  = min (Rails.domainFromData data padMonths) /\
  num_eq (x Rails.PX_PER_MONTH (min (Rails.domainFromData data padMonths))
            (min (Rails.domainFromData data padMonths))) 0 /\
  forall d, plain d -> date_le (min (Rails.domainFromData data padMonths)) d ->
            num_le (Some 0%Q)
                   (x Rails.PX_PER_MONTH
                      (min (Rails.domainFromData data padMonths)) d).
Proof.
  intros Hne HP. unfold Rails.domainFromData.
  destruct (domainOfDates_bounds _ Hne HP) as (lo & hi & _ & _ & _ & _ & E).
  destruct (E padMonths) as [Emin _]. rewrite Emin.
  set (i := 12 * (monthOf lo / 12) - padMonths).
  intros P0.
  pose proof (TimeClip_isValid _ (plain_isValid _ P0)) as ET.
  rewrite ET in P0. rewrite ET.
  pose proof (proj1 (plain_monthStartTime i) P0) as Pi.
  split; [|split].
  - now rewrite startOfMonth_Time, monthOf_monthStartTime.
  - now apply x_origin.
  - intros [|t] Pd Hd; [contradiction|]. cbn [date_le] in Hd.
    assert (Hpx : (0 <= Rails.PX_PER_MONTH)%Q) by discriminate.
    rewrite x_coord by assumption. cbn [num_le].
    rewrite <- (coord_origin Rails.PX_PER_MONTH i).
    now apply coord_mono.
Qed.

End Layout.

(** ** The statements on the sample inputs *)



Lemma domain_contains_items_witness :
  (date_le (min (@Timeline.domainFromData utcHost Timeline.DATA 1))
           (@toDate utcHost (Timeline.start identio)) /\
   date_le (@Timeline.endOrStart utcHost identio)
           (max (@Timeline.domainFromData utcHost Timeline.DATA 1))) /\
  (date_le (min (@Rails.domainFromData utcHost Rails.DATA 0))
           (@toDate utcHost (Str (Rails.start arado))) /\
   date_le (@toDate utcHost (Str (Rails.end_ arado)))
           (max (@Rails.domainFromData utcHost Rails.DATA 0))).
Proof.
  split.
  - apply (proj1 (@domain_contains_items utcHost) Timeline.DATA 1).
    + lia.
    + apply forallb_plain. vm_compute. reflexivity.
    + vm_compute. exact I.
    + vm_compute. exact I.
    + right. right. left. reflexivity.
  - apply (proj1 (proj2 (@domain_contains_items utcHost)) Rails.DATA 0
             ltac:(lia)
             ltac:(apply forallb_plain; vm_compute; reflexivity)
             ltac:(vm_compute; exact I)
             ltac:(vm_compute; exact I)
             (snd (nth 0 Rails.DATA ("x"%string,
                     {| Rails.lane := "x"; Rails.items := [];
                        Rails.height := 0; Rails.yTop := 0 |})))).
    + left. reflexivity.
    + right. right. right. left. reflexivity.
Defined.

(** C2, as the spec states it, fails.  For an item from 0050-06-15 to
    0050-07-15 the resolved domain is valid and starts on 1950-01-01, after
    the start of the item: [startOfYear] builds its date with the
    constructor, which reads the year 50 as 1950.  And with a padding of
    four million months the bounds for the data of Timeline.tsx leave the
    range of dates: both are the Invalid Date. *)
Lemma domain_misses_item_of_year_50 :
  (min (@Rails.domainFromData utcHost (onlyItem year50) Rails.PAD_MONTHS)
   = @toDate utcHost (Str "1950-01-01") /\
   isValid (max (@Rails.domainFromData utcHost (onlyItem year50)
                   Rails.PAD_MONTHS)) /\
   ~ date_le (min (@Rails.domainFromData utcHost (onlyItem year50)
                     Rails.PAD_MONTHS))
             (@toDate utcHost (Str (Rails.start year50)))) /\
  @Timeline.domainFromData utcHost Timeline.DATA 4000000
  = {| min := InvalidDate; max := InvalidDate |}.
Proof.
  vm_compute. split; [|reflexivity].
  split; [reflexivity|]. split; [exact I|].
  intros H. apply H. reflexivity.
Qed.

(** C3, as the spec states it, fails: on an empty collection the resolver
    returns, and both bounds it returns are the Invalid Date. *)
Lemma empty_domain_returns_invalid_dates :
  ~ isValid (min (@Rails.domainFromData utcHost [] Rails.PAD_MONTHS)) /\
  ~ isValid (max (@Rails.domainFromData utcHost [] Rails.PAD_MONTHS)).
Proof. split; intros H; exact H. Qed.

Lemma empty_domain_is_invalid_witness :
  @Rails.domainFromData utcHost emptyLane Rails.PAD_MONTHS
  = {| min := InvalidDate; max := InvalidDate |}.
Proof.
  apply (@empty_domain_is_invalid utcHost emptyLane Rails.PAD_MONTHS).
  reflexivity.
Defined.







Lemma lane_layout_witness :
  (translateY (@Timeline.renderLane utcHost 64 12 20 (Time origin2016)
                 Timeline.DATA Timeline.School 1)
   == 40 + Qsum (map (fun _ => 64 + 12)
                     (firstn 1 [Timeline.Work; Timeline.School;
                                Timeline.Volunteering])))%Q.
Proof.
  apply (proj1 (@lane_layout utcHost) 64%Q 12%Q 20%Q (Time origin2016)
           Timeline.DATA
           [Timeline.Work; Timeline.School; Timeline.Volunteering] 1%nat).
  reflexivity.
Defined.

(** C9, as the spec states it, fails for the component with rails: the top
    of a lane is read from the data.  The second of two lanes to which the
    data gives the top 40 is drawn at 40, not below the height 120 of the
    first, whatever the gap. *)
Lemma lane_top_is_read_from_data :
  exists lane,
    nth_error (Rails.Object_values sameTop) 1 = Some lane /\
    translateY (@Rails.renderLane utcHost (Time origin2016) lane) = 40%Q /\
    forall gap : Q,
      (0 <= gap)%Q ->
      ~ (translateY (@Rails.renderLane utcHost (Time origin2016) lane)
         == Rails.RULER_HEIGHT
            + Qsum (map (fun l => Rails.height l + gap)
                        (firstn 1 (Rails.Object_values sameTop))))%Q.
Proof.
  eexists. split; [reflexivity|]. split; [reflexivity|].
  intros gap Hgap. cbn. unfold Rails.RULER_HEIGHT. intros H. lra.
Qed.

Lemma domain_origin_witness :
  num_eq (@x utcHost Rails.PX_PER_MONTH
            (min (@Rails.domainFromData utcHost Rails.DATA Rails.PAD_MONTHS))
            (min (@Rails.domainFromData utcHost Rails.DATA Rails.PAD_MONTHS)))
         0.
Proof.
  assert (Hne : @Rails.itemDates utcHost Rails.DATA <> [])
    by (vm_compute; discriminate).
  assert (HF : Forall (@plain utcHost) (@Rails.itemDates utcHost Rails.DATA))
    by (apply forallb_plain; vm_compute; reflexivity).
  assert (HP : @plain utcHost
                  (min (@Rails.domainFromData utcHost Rails.DATA
                          Rails.PAD_MONTHS)))
    by (apply plainb_plain; vm_compute; reflexivity).
  destruct (@domain_origin utcHost Rails.DATA Rails.PAD_MONTHS Hne HF HP)
    as (_ & H & _).
  exact H.
Defined.

(** C10, as the spec states it, fails.  With a padding of one month the
    domain of the data of the component starts on 2015-12-01, and the first
    tick of the ruler, of the year 2015, stands eleven months to the left
    of the origin, at -154.  And in the domain resolved from an item of the
    year -1 and one of the year 101, the date 0000-02-15, after the
    minimum, is projected below 0: its share of the month is counted from
    1900-02-01. *)
Lemma first_tick_left_of_origin :
  (min (@Rails.domainFromData utcHost Rails.DATA 1)
   = @toDate utcHost (Str "2015-12-01") /\
   nth_error (@Rails.yearTickPositions utcHost
                (min (@Rails.domainFromData utcHost Rails.DATA 1))
                (max (@Rails.domainFromData utcHost Rails.DATA 1))) 0
   = Some (2015, @x utcHost Rails.PX_PER_MONTH
                   (min (@Rails.domainFromData utcHost Rails.DATA 1))
                   (@Date_ymd utcHost (Some 2015) (Some 0) (Some 1))) /\
   num_eq (@x utcHost Rails.PX_PER_MONTH
             (min (@Rails.domainFromData utcHost Rails.DATA 1))
             (@Date_ymd utcHost (Some 2015) (Some 0) (Some 1)))
          (-154)) /\
  (date_le (min (@Timeline.domainFromData utcHost ancient 0))
           (@toDate utcHost (Str "0000-02-15")) /\
   num_lt (@x utcHost Rails.PX_PER_MONTH
             (min (@Timeline.domainFromData utcHost ancient 0))
             (@toDate utcHost (Str "0000-02-15")))
          (Some 0%Q)).
Proof. vm_compute. repeat split. discriminate. Qed.

(** ** More on the date helpers *)

Lemma month_length_bounds (i : Z) :
  28 <= monthStartDay (i + 1) - monthStartDay i <= 31.
Proof.
  assert (H : 0 <= i mod 12 < 12) by (apply Z.mod_pos_bound; lia).
  pose proof (monthStartDay_next (i / 12) (i mod 12) H) as Hn.
  pose proof (monthStartDay_index (i / 12) (i mod 12) H) as Hi.
  rewrite <- monthIndex_decompose in Hn, Hi. rewrite Hn, Hi.
  set (m := i mod 12) in *. clearbody m. clear Hn Hi.
  month_cases m; destruct (isLeap (i / 12)); cbn; lia.
Qed.

Section DateHelpers.
Context {host : Host}.

(** The days that a time value lies into its local month, from 0. *)
Lemma dayInMonth_range (t : Z) :
  0 <= Day (LocalTime t) - monthStartDay (monthOf t) <= 30.
Proof.
  unfold monthOf.
  pose proof (monthIndexOfDay_bounds (Day (LocalTime t))).
  pose proof (month_length_bounds (monthIndexOfDay (Day (LocalTime t)))).
  lia.
Qed.

Lemma monthStartTime_inj (i j : Z) :
  monthStartTime i = monthStartTime j -> i = j.
Proof.
  intros E. destruct (Z.lt_trichotomy i j) as [H | [H | H]]; [|assumption|].
  - pose proof (monthStartTime_lt i j H). lia.
  - pose proof (monthStartTime_lt j i H). lia.
Qed.

(** In a year from 0 to 99 [startOfMonth] lands in the year 1900 later. *)
Lemma startOfMonth_legacy (t : Z) :
  0 <= monthOf t / 12 <= 99 ->
  startOfMonth (Time t)
  = TimeClip (monthStartTime (monthIndex (1900 + monthOf t / 12)
                                (monthOf t mod 12))).
Proof.
  intros H. unfold startOfMonth. rewrite getFullYear_Time, getMonth_Time.
  now apply Date_ymd_legacy.
Qed.

(** The fixed points of [startOfMonth] are starts of months. *)
Lemma startOfMonth_fixed (u : Z) :
  startOfMonth (Time u) = Time u -> u = monthStartTime (monthOf u).
Proof.
  intros E.
  destruct (Z_lt_dec (monthOf u / 12) 0) as [Hneg | Hnn].
  - rewrite startOfMonth_clip in E by now left.
    now apply TimeClip_Time in E as [E _].
  - destruct (Z_lt_dec 99 (monthOf u / 12)) as [Hbig | Hsmall].
    + rewrite startOfMonth_clip in E by now right.
      now apply TimeClip_Time in E as [E _].
    + exfalso. rewrite startOfMonth_legacy in E by lia.
      apply TimeClip_Time in E as [E _].
      assert (HM : monthOf u = monthIndex (1900 + monthOf u / 12)
                                 (monthOf u mod 12)).
      { rewrite E at 1. apply monthOf_monthStartTime. }
      assert (Hm : 0 <= monthOf u mod 12 < 12)
        by (apply Z.mod_pos_bound; lia).
      pose proof (monthIndex_div (1900 + monthOf u / 12) (monthOf u mod 12) Hm)
        as Hd.
      rewrite <- HM in Hd. lia.
Qed.

(** X1.
    [monthDiff] counts months like a difference: it is 0 on a date and
    itself, changes sign when its arguments are swapped, and adds up along a
    chain of dates. *)
Theorem monthDiff_chain (a b c : Z) :
  monthDiff (Time a) (Time a) = Some 0 /\
  monthDiff (Time b) (Time a) = option_map Z.opp (monthDiff (Time a) (Time b))
  /\ zadd (monthDiff (Time a) (Time b)) (monthDiff (Time b) (Time c))
     = monthDiff (Time a) (Time c).
Proof.
  rewrite !monthDiff_Time. cbn [option_map zadd lift2].
  repeat split; f_equal; lia.
Qed.

(** X2.
    From a date to a later one [monthDiff] is not negative; between dates
    of plain years (from -271820 to 275759, not 0 to 99) it is 0 exactly
    when [startOfMonth] takes the two dates to the same date. *)
Theorem monthDiff_order (a b : Z) :
  plain (Time a) -> plain (Time b) -> a <= b ->
  exists k, monthDiff (Time a) (Time b) = Some k /\ 0 <= k /\
            (k = 0 <-> startOfMonth (Time a) = startOfMonth (Time b)).
Proof.
  intros Pa Pb H. exists (monthOf b - monthOf a).
  rewrite monthDiff_Time, !startOfMonth_Time by assumption.
  pose proof (monthOf_mono a b H).
  split; [reflexivity|]. split; [lia|]. split.
  - intros E. do 2 f_equal. lia.
  - intros E. injection E as E. apply monthStartTime_inj in E. lia.
Qed.

(** X3.
    On a date of a plain year [startOfMonth] is the floor of the date on
    the starts of the local months: a fixed point of [startOfMonth] at or
    before the date, on the first of the same month of the same year, and no
    other fixed point lies between it and the date. *)
Theorem startOfMonth_floor (t : Z) :
  plain (Time t) ->
  exists s,
    startOfMonth (Time t) = Time s /\ s <= t /\
    startOfMonth (Time s) = Time s /\
    getFullYear (Time s) = getFullYear (Time t) /\
    getMonth (Time s) = getMonth (Time t) /\
    getDate (Time s) = Some 1 /\
    forall u, startOfMonth (Time u) = Time u -> u <= t -> u <= s.
Proof.
  intros P. exists (monthStartTime (monthOf t)).
  pose proof (monthStartTime_bounds t) as Hb.
  assert (Ps : plain (Time (monthStartTime (monthOf t)))).
  { apply plain_monthStartTime. now apply plain_Time. }
  rewrite !startOfMonth_Time by assumption.
  rewrite !getFullYear_Time, !getMonth_Time, getDate_Time.
  rewrite !monthOf_monthStartTime.
  repeat split; try lia.
  - f_equal. rewrite Day_monthStartTime. lia.
  - intros u Hu Hut. apply startOfMonth_fixed in Hu.
    rewrite Hu. apply monthStartTime_mono, monthOf_mono. assumption.
Qed.

(** X4.
    [startOfYear] and [endOfYear] bracket a date of a plain year inside its
    local year: both lie in the year of the date, and the millisecond after
    [endOfYear] is the first of January of the next year. *)
Theorem year_bracket (t : Z) :
  plain (Time t) ->
  exists s e y,
    getFullYear (Time t) = Some y /\
    startOfYear (Time t) = Time s /\ endOfYear (Time t) = Time e /\
    s <= t <= e /\
    getFullYear (Time s) = Some y /\ getFullYear (Time e) = Some y /\
    getFullYear (Time (e + 1)) = Some (y + 1) /\
    getMonth (Time (e + 1)) = Some 0 /\ getDate (Time (e + 1)) = Some 1.
Proof.
  intros P.
  exists (monthStartTime (12 * (monthOf t / 12))),
         (lastMsOfDay (12 * (monthOf t / 12) + 11) 30), (monthOf t / 12).
  rewrite startOfYear_Time, endOfYear_Time by assumption.
  rewrite lastMsOfDay_next.
  replace (monthStartTime (12 * (monthOf t / 12) + 12) - 1 + 1)
    with (monthStartTime (12 * (monthOf t / 12) + 12)) by lia.
  rewrite <- lastMsOfDay_next.
  rewrite !getFullYear_Time, getMonth_Time, getDate_Time.
  rewrite Day_monthStartTime, !monthOf_monthStartTime, monthOf_lastMsOfDay.
  pose proof (startOfYear_le t). pose proof (endOfYear_ge t).
  set (y := monthOf t / 12) in *.
  repeat split; try lia; f_equal; try lia; Z.div_mod_to_equations; lia.
Qed.

End DateHelpers.

(** ** Adding months *)

Section AddMonths.
Context {host : Host}.

Lemma Day_shifted (t n : Z) :
  Day (LocalTime (shifted t n))
  = monthStartDay (monthOf t + n)
    + (Day (LocalTime t) - monthStartDay (monthOf t)).
Proof.
  unfold shifted. rewrite LocalTime_UTC.
  apply Day_compose, TimeWithinDay_range.
Qed.

(** The month in which [addMonths] lands: the one asked for, or the next
    one when that month is too short for the day of the month. *)
Lemma monthOf_shifted (t n : Z) :
  monthOf (shifted t n)
  = if Day (LocalTime t) - monthStartDay (monthOf t)
       <? monthStartDay (monthOf t + n + 1) - monthStartDay (monthOf t + n)
    then monthOf t + n else monthOf t + n + 1.
Proof.
  unfold monthOf at 1. rewrite Day_shifted.
  pose proof (dayInMonth_range t) as Hd.
  pose proof (month_length_bounds (monthOf t + n)) as H1.
  pose proof (month_length_bounds (monthOf t + n + 1)) as H2.
  destruct (_ <? _) eqn:E; [apply Z.ltb_lt in E | apply Z.ltb_ge in E];
    apply monthIndexOfDay_unique; lia.
Qed.

(** X5.
    Where [addMonths] yields a date, it has moved the date by the months
    asked for, or by one month more: the day of the month is kept, and a
    day that the target month lacks runs over into the month after it.
    (Beyond the range of dates it yields the Invalid Date.) *)
Theorem addMonths_month_bounds (t n u : Z) :
  addMonths (Time t) n = Time u ->
  exists k, monthDiff (Time t) (Time u) = Some k /\ n <= k <= n + 1.
Proof.
  intros E. rewrite addMonths_Time in E. apply TimeClip_Time in E as [-> _].
  rewrite monthDiff_Time, monthOf_shifted.
  eexists. split; [reflexivity|].
  destruct (_ <? _); lia.
Qed.

End AddMonths.

(** A month after 2020-01-31 is 2020-03-02, two months on by [monthDiff],
    and a month before that is 2020-02-02; four million months on there is
    no date. *)
Remark addMonths_overflow :
  @addMonths utcHost (@toDate utcHost (Str "2020-01-31")) 1
  = @toDate utcHost (Str "2020-03-02") /\
  @monthDiff utcHost (@toDate utcHost (Str "2020-01-31"))
    (@addMonths utcHost (@toDate utcHost (Str "2020-01-31")) 1) = Some 2 /\
  @addMonths utcHost
    (@addMonths utcHost (@toDate utcHost (Str "2020-01-31")) 1) (-1)
  = @toDate utcHost (Str "2020-02-02") /\
  @addMonths utcHost (@toDate utcHost (Str "2020-01-15")) 4000000
  = InvalidDate.
Proof. vm_compute. repeat split. Qed.

(** ** More on the scale *)

Section ScaleMore.
Context {host : Host}.




(** X8.
    A date of a plain year is drawn inside the strip of its month: the
    start of its month lies a whole number of months from the origin,
    [monthDiff] of them, and the date at most one month further. *)
Theorem x_in_month_strip (pxPerMonth : Q) (m0 t : Z) :
  (0 <= pxPerMonth)%Q -> plain (Time m0) -> plain (Time t) ->
  exists k q,
    monthDiff (startOfMonth (Time m0)) (startOfMonth (Time t)) = Some k /\
    num_eq (x pxPerMonth (Time m0) (startOfMonth (Time t)))
           (inject_Z k * pxPerMonth) /\
    x pxPerMonth (Time m0) (Time t) = Some q /\
    (inject_Z k * pxPerMonth <= q)%Q /\
    (q <= inject_Z k * pxPerMonth + pxPerMonth)%Q.
Proof.
  intros Hpx P0 Pt.
  exists (monthOf t - monthOf m0), (coord pxPerMonth m0 t).
  rewrite !startOfMonth_Time by assumption.
  rewrite monthDiff_Time, !monthOf_monthStartTime.
  split; [reflexivity|]. split.
  { apply x_monthStart; [assumption | now apply plain_Time]. }
  split; [now apply x_coord|].
  unfold coord. pose proof (frac_nonneg t). pose proof (frac_lt_1 t).
  set (k := inject_Z (monthOf t - monthOf m0)). set (f := frac t) in *.
  clearbody k f. split; nra.
Qed.

(** X9.
    For a finite number of pixels per month the scale is NaN when its
    origin or its date is invalid, and a number when both are dates of
    plain years. *)
Theorem x_NaN_or_number (pxPerMonth : Q) (min d : Date) :
  (min = InvalidDate \/ d = InvalidDate -> x pxPerMonth min d = None) /\
  (plain min -> plain d -> exists q, x pxPerMonth min d = Some q).
Proof.
  split.
  - intros [-> | ->]; [apply x_invalid_origin | apply x_invalid_date].
  - intros P0 Pd.
    destruct min as [|m0]; [contradiction|].
    destruct d as [|t]; [contradiction|].
    eexists. now apply x_coord.
Qed.

End ScaleMore.

(** ** More on domain resolution *)

Lemma Math_min_perm (l l' : list (option Z)) :
  Permutation l l' -> Math_min l = Math_min l'.
Proof.
  induction 1 as [|v l l' _ IH|u v l|l l' l'' _ IH1 _ IH2].
  - reflexivity.
  - cbn [Math_min]. now rewrite IH.
  - cbn [Math_min].
    destruct u as [a|], v as [b|], (Math_min l) as [| | |c];
      try reflexivity.
    + f_equal. lia.
    + f_equal. lia.
  - congruence.
Qed.

Lemma Math_max_perm (l l' : list (option Z)) :
  Permutation l l' -> Math_max l = Math_max l'.
Proof.
  induction 1 as [|v l l' _ IH|u v l|l l' l'' _ IH1 _ IH2].
  - reflexivity.
  - cbn [Math_max]. now rewrite IH.
  - cbn [Math_max].
    destruct u as [a|], v as [b|], (Math_max l) as [| | |c];
      try reflexivity.
    + f_equal. lia.
    + f_equal. lia.
  - congruence.
Qed.

Section DomainMore.
Context {host : Host}.

Lemma domainOfDates_perm (dates dates' : list Date) (padMonths : Z) :
  Permutation dates dates' ->
  domainOfDates dates padMonths = domainOfDates dates' padMonths.
Proof.
  intros HP. unfold domainOfDates.
  assert (HN : Permutation (map Number dates) (map Number dates'))
    by now apply Permutation_map.
  now rewrite (Math_min_perm _ _ HN), (Math_max_perm _ _ HN).
Qed.

(** X11.
    The resolved domain does not depend on the order of the items, nor, in
    the component with rails, on the order of the lanes. *)
Theorem domain_order_independent :
  (forall (data data' : list Timeline.TimelineItem) (padMonths : Z),
      Permutation data data' ->
      Timeline.domainFromData data padMonths
      = Timeline.domainFromData data' padMonths) /\
  (forall (data data' : Rails.TimelineData) (padMonths : Z),
      Permutation data data' ->
      Rails.domainFromData data padMonths
      = Rails.domainFromData data' padMonths).
Proof.
  split; intros data data' pad HP.
  - apply domainOfDates_perm. unfold Timeline.itemDates.
    now apply Permutation_flat_map.
  - apply domainOfDates_perm. unfold Rails.itemDates, Rails.Object_values.
    now apply Permutation_flat_map, Permutation_map.
Qed.

(** X12.
    A larger padding widens the domain on both sides, as far as the wider
    domain stays within the range of dates; the dates of the items are
    dates of plain years. *)
Theorem domain_widens_with_padding (data : list Timeline.TimelineItem)
  (padMonths padMonths' : Z) :
  data <> [] -> Forall plain (Timeline.itemDates data) ->
  0 <= padMonths <= padMonths' ->
  isValid (min (Timeline.domainFromData data padMonths')) ->
  isValid (max (Timeline.domainFromData data padMonths')) ->
  date_le (min (Timeline.domainFromData data padMonths'))
          (min (Timeline.domainFromData data padMonths)) /\
  date_le (max (Timeline.domainFromData data padMonths))
          (max (Timeline.domainFromData data padMonths')).
Proof.
  intros Hne HP Hpad. unfold Timeline.domainFromData.
  assert (Hd : Timeline.itemDates data <> []).
  { destruct data; [congruence | discriminate]. }
  destruct (domainOfDates_bounds _ Hd HP)
    as (lo & hi & _ & Plo & Phi & _ & E).
  destruct (E padMonths) as [Emin Emax].
  destruct (E padMonths') as [Emin' Emax'].
  rewrite Emin, Emax, Emin', Emax'. intros Vmin Vmax.
  pose proof (TimeClip_isValid _ Vmin) as Tmin.
  pose proof (TimeClip_isValid _ Vmax) as Tmax.
  rewrite Tmin, Tmax.
  pose proof (proj2 (TimeClip_Time _ _ Tmin)) as Rmin.
  pose proof (proj2 (TimeClip_Time _ _ Tmax)) as Rmax.
  apply plain_Time in Plo, Phi. destruct Plo as [Plo _], Phi as [Phi _].
  assert (M1 : monthStartTime (12 * (monthOf lo / 12) - padMonths')
               <= monthStartTime (12 * (monthOf lo / 12) - padMonths))
    by (apply monthStartTime_mono; lia).
  assert (M2 : monthStartTime (12 * (monthOf lo / 12) - padMonths)
               <= monthStartTime (12 * (monthOf lo / 12)))
    by (apply monthStartTime_mono; lia).
  assert (M3 : lastMsOfDay (12 * (monthOf hi / 12) + 11) 30
               <= lastMsOfDay (12 * (monthOf hi / 12) + 11 + padMonths) 30)
    by (apply lastMsOfDay_mono; lia).
  assert (M4 : lastMsOfDay (12 * (monthOf hi / 12) + 11 + padMonths) 30
               <= lastMsOfDay (12 * (monthOf hi / 12) + 11 + padMonths') 30)
    by (apply lastMsOfDay_mono; lia).
  rewrite (TimeClip_inRange
             (monthStartTime (12 * (monthOf lo / 12) - padMonths))).
  2:{ apply (inRange_between
               (monthStartTime (12 * (monthOf lo / 12) - padMonths'))
               (monthStartTime (12 * (monthOf lo / 12))));
        [exact Rmin | apply monthStartTime_inRange; lia | lia]. }
  rewrite (TimeClip_inRange
             (lastMsOfDay (12 * (monthOf hi / 12) + 11 + padMonths) 30)).
  2:{ apply (inRange_between (lastMsOfDay (12 * (monthOf hi / 12) + 11) 30)
               (lastMsOfDay (12 * (monthOf hi / 12) + 11 + padMonths') 30));
        [apply lastMsOfDay_inRange; exact Phi | exact Rmax | lia]. }
  cbn [date_le]. split; assumption.
Qed.

(** Between two dates the year loop reaches the year of every date that
    lies between them. *)
Lemma yearsBetween_covers (a b t : Z) :
  a <= t <= b -> In (monthOf t / 12) (yearsBetween (Time a) (Time b)).
Proof.
  intros [Ha Hb]. rewrite yearsBetween_Time, !YearFromTime_monthOf.
  pose proof (monthOf_mono a t Ha). pose proof (monthOf_mono t b Hb).
  assert (monthOf a / 12 <= monthOf t / 12) by (apply Z.div_le_mono; lia).
  assert (monthOf t / 12 <= monthOf b / 12) by (apply Z.div_le_mono; lia).
  apply yearRange_In. lia.
Qed.

Lemma years_cover_dates (dates : list Date) (padMonths : Z) (d : Date) :
  0 <= padMonths -> Forall plain dates ->
  isValid (min (domainOfDates dates padMonths)) ->
  isValid (max (domainOfDates dates padMonths)) ->
  In d dates ->
  exists y, getFullYear d = Some y /\
            In y (yearsBetween (min (domainOfDates dates padMonths))
                               (max (domainOfDates dates padMonths))).
Proof.
  intros Hpad HP Vmin Vmax Hin.
  destruct (domainOfDates_contains dates padMonths HP Hpad Vmin Vmax d Hin)
    as [H1 H2].
  destruct (min (domainOfDates dates padMonths)) as [|a]; [contradiction|].
  destruct d as [|t]; [contradiction|].
  destruct (max (domainOfDates dates padMonths)) as [|b]; [contradiction|].
  cbn [date_le] in H1, H2. exists (monthOf t / 12).
  split; [apply getFullYear_Time|]. apply yearsBetween_covers. lia.
Qed.

Lemma Rails_SvgTimeline_Returned (data : Rails.TimelineData)
  (svg : Rails.Svg) :
  Rails.SvgTimeline data = Returned svg ->
  Rails.canvasHeight data = Returned (Rails.svgHeight svg) /\
  Rails.svgWidth svg = Rails.innerWidth data /\
  Rails.ticks svg
  = Rails.yearTickPositions
      (min (Rails.domainFromData data Rails.PAD_MONTHS))
      (max (Rails.domainFromData data Rails.PAD_MONTHS)) /\
  Rails.groups svg
  = map (Rails.renderLane (min (Rails.domainFromData data Rails.PAD_MONTHS)))
        (Rails.Object_values data).
Proof.
  unfold Rails.SvgTimeline. cbv zeta.
  destruct (Rails.canvasHeight data) as [h|]; [|discriminate].
  intros E. injection E as <-. repeat split.
Qed.

(** The domain of the component with rails, which pads by no month: from
    the start of the year of the earliest date to the end of the year of
    the latest. *)
Lemma Rails_domain (data : Rails.TimelineData) :
  Rails.itemDates data <> [] -> Forall plain (Rails.itemDates data) ->
  exists lo hi,
    lo <= hi /\ plain (Time lo) /\ plain (Time hi) /\
    (forall t, In (Time t) (Rails.itemDates data) -> lo <= t <= hi) /\
    min (Rails.domainFromData data Rails.PAD_MONTHS)
    = Time (monthStartTime (12 * (monthOf lo / 12))) /\
    max (Rails.domainFromData data Rails.PAD_MONTHS)
    = Time (lastMsOfDay (12 * (monthOf hi / 12) + 11) 30).
Proof.
  intros Hne HP. unfold Rails.domainFromData, Rails.PAD_MONTHS.
  now apply domainOfDates_unpadded.
Qed.

(** X13.
    The year ruler has a tick for the year of the start and of the end of
    every item, when the dates of the items are dates of plain years: in
    Timeline.tsx for every non-negative padding that leaves the bounds of
    the domain valid dates, in the component with rails whenever it
    draws. *)
Theorem ticks_cover_items :
  (forall (data : list Timeline.TimelineItem) (lanes : list Timeline.LaneId)
          (laneHeight laneGap pxPerMonth : Q) (padMonths : Z),
      0 <= padMonths -> Forall plain (Timeline.itemDates data) ->
      isValid (min (Timeline.domainFromData data padMonths)) ->
      isValid (max (Timeline.domainFromData data padMonths)) ->
      forall it, In it data ->
        exists ys ye,
          getFullYear (toDate (Timeline.start it)) = Some ys /\
          getFullYear (Timeline.endOrStart it) = Some ye /\
          In ys (map fst (Timeline.ticks
                            (Timeline.SvgTimeline data lanes laneHeight
                               laneGap pxPerMonth padMonths))) /\
          In ye (map fst (Timeline.ticks
                            (Timeline.SvgTimeline data lanes laneHeight
                               laneGap pxPerMonth padMonths)))) /\
  (forall (data : Rails.TimelineData) (svg : Rails.Svg),
      Forall plain (Rails.itemDates data) ->
      Rails.SvgTimeline data = Returned svg ->
      forall lane it,
        In lane (Rails.Object_values data) -> In it (Rails.items lane) ->
        exists ys ye,
          getFullYear (toDate (Str (Rails.start it))) = Some ys /\
          getFullYear (toDate (Str (Rails.end_ it))) = Some ye /\
          In ys (map fst (Rails.ticks svg)) /\
          In ye (map fst (Rails.ticks svg))).
Proof.
  split.
  - intros data lanes lh lg px pad Hpad HP Vmin Vmax it Hin.
    destruct (Timeline_dates_In data it Hin) as [Hs He].
    unfold Timeline.domainFromData in Vmin, Vmax.
    destruct (years_cover_dates _ pad _ Hpad HP Vmin Vmax Hs)
      as (ys & Eys & Hys).
    destruct (years_cover_dates _ pad _ Hpad HP Vmin Vmax He)
      as (ye & Eye & Hye).
    exists ys, ye. split; [assumption|]. split; [assumption|].
    unfold Timeline.SvgTimeline. cbv zeta. unfold Timeline.ticks.
    rewrite map_map. cbn [fst]. rewrite map_id. split; assumption.
  - intros data svg HP Hsvg lane it Hl Hin.
    destruct (Rails_dates_In data lane it Hl Hin) as [Hs He].
    pose proof (In_not_nil _ _ Hs) as Hne.
    destruct (Rails_domain data Hne HP) as (lo & hi & _ & _ & _ & _ & E1 & E2).
    assert (Vmin : isValid (min (domainOfDates (Rails.itemDates data)
                                   Rails.PAD_MONTHS))).
    { unfold Rails.domainFromData in E1. rewrite E1. exact I. }
    assert (Vmax : isValid (max (domainOfDates (Rails.itemDates data)
                                   Rails.PAD_MONTHS))).
    { unfold Rails.domainFromData in E2. rewrite E2. exact I. }
    assert (Hpad : 0 <= Rails.PAD_MONTHS) by (unfold Rails.PAD_MONTHS; lia).
    destruct (years_cover_dates _ _ _ Hpad HP Vmin Vmax Hs)
      as (ys & Eys & Hys).
    destruct (years_cover_dates _ _ _ Hpad HP Vmin Vmax He)
      as (ye & Eye & Hye).
    exists ys, ye. split; [assumption|]. split; [assumption|].
    destruct (Rails_SvgTimeline_Returned data svg Hsvg) as (_ & _ & Et & _).
    rewrite Et. unfold Rails.yearTickPositions, Rails.domainFromData.
    rewrite map_map. cbn [fst]. rewrite map_id. split; assumption.
Qed.

End DomainMore.

(** ** The canvas of the component with rails *)

Section RailsCanvas.
Context {host : Host}.



Lemma plain_yearStart (lo : Z) :
  plain (Time lo) -> plain (Time (monthStartTime (12 * (monthOf lo / 12)))).
Proof.
  intros P. apply plain_Time in P. apply plain_monthStartTime.
  replace (12 * (monthOf lo / 12) / 12) with (monthOf lo / 12)
    by (Z.div_mod_to_equations; lia).
  assumption.
Qed.

Lemma plain_yearEnd (hi : Z) :
  plain (Time hi) ->
  plain (Time (lastMsOfDay (12 * (monthOf hi / 12) + 11) 30)).
Proof.
  intros P. apply plain_Time in P. apply plain_Time.
  rewrite monthOf_lastMsOfDay.
  replace ((12 * (monthOf hi / 12) + 11) / 12) with (monthOf hi / 12)
    by (Z.div_mod_to_equations; lia).
  assumption.
Qed.

Lemma Rails_totalMonths_value (data : Rails.TimelineData) (lo hi : Z) :
  plain (Time lo) -> plain (Time hi) ->
  min (Rails.domainFromData data Rails.PAD_MONTHS)
  = Time (monthStartTime (12 * (monthOf lo / 12))) ->
  max (Rails.domainFromData data Rails.PAD_MONTHS)
  = Time (lastMsOfDay (12 * (monthOf hi / 12) + 11) 30) ->
  Rails.totalMonths data
  = Some (Qmax 1 (inject_Z (12 * (monthOf hi / 12 - monthOf lo / 12 + 1)))).
Proof.
  intros Plo Phi Emin Emax. unfold Rails.totalMonths. cbv zeta.
  rewrite Emin, Emax.
  rewrite (startOfMonth_Time (monthStartTime (12 * (monthOf lo / 12))))
    by (apply plain_yearStart; assumption).
  rewrite (startOfMonth_Time (lastMsOfDay (12 * (monthOf hi / 12) + 11) 30))
    by (apply plain_yearEnd; assumption).
  rewrite monthDiff_Time, !monthOf_monthStartTime.
  rewrite monthOf_lastMsOfDay. cbn [zadd lift2 toQ option_map Math_max2].
  do 3 f_equal. lia.
Qed.

(** X14.
    When the component with rails draws items whose dates are dates of
    plain years, its canvas is as wide as twelve months for each tick of
    the ruler, 14 units a month, and never narrower than 800. *)
Theorem Rails_width_by_ticks (data : Rails.TimelineData) (svg : Rails.Svg) :
  Rails.itemDates data <> [] -> Forall plain (Rails.itemDates data) ->
  Rails.SvgTimeline data = Returned svg ->
  num_eq (Rails.totalMonths data)
         (12 * inject_Z (Z.of_nat (List.length (Rails.ticks svg)))) /\
  num_eq (Rails.svgWidth svg)
         (Qmax 800
            (12 * inject_Z (Z.of_nat (List.length (Rails.ticks svg))) * 14)).
Proof.
  intros Hne HP Hsvg.
  destruct (Rails_SvgTimeline_Returned data svg Hsvg) as (_ & Ew & Et & _).
  destruct (Rails_domain data Hne HP)
    as (lo & hi & Hlh & Plo & Phi & _ & Emin & Emax).
  pose proof (Rails_totalMonths_value data lo hi Plo Phi Emin Emax) as Htm.
  assert (Hy : monthOf lo / 12 <= monthOf hi / 12).
  { apply Z.div_le_mono; [lia|]. now apply monthOf_mono. }
  set (n := inject_Z (Z.of_nat (List.length (Rails.ticks svg)))).
  assert (Hn : (n == inject_Z (monthOf hi / 12 - monthOf lo / 12 + 1))%Q).
  { unfold n. rewrite Et. unfold Rails.yearTickPositions.
    rewrite Emin, Emax.
    rewrite length_map, yearsBetween_Time, !YearFromTime_monthOf.
    rewrite monthOf_monthStartTime, monthOf_lastMsOfDay.
    unfold yearRange. rewrite length_map, length_seq.
    replace ((12 * (monthOf hi / 12) + 11) / 12) with (monthOf hi / 12)
      by (Z.div_mod_to_equations; lia).
    replace (12 * (monthOf lo / 12) / 12) with (monthOf lo / 12)
      by (Z.div_mod_to_equations; lia).
    rewrite Z2Nat.id by lia. reflexivity. }
  set (Y := monthOf hi / 12 - monthOf lo / 12 + 1) in *.
  assert (HK : (Qmax 1 (inject_Z (12 * Y)) == 12 * n)%Q).
  { rewrite Hn, Q.max_r.
    - rewrite inject_Z_mult. reflexivity.
    - change 1%Q with (inject_Z 1). rewrite <- Zle_Qle. lia. }
  rewrite Ew. unfold Rails.innerWidth. rewrite Htm.
  cbn [num_eq qmul lift2 Math_max2]. split; [assumption|].
  unfold Rails.PX_PER_MONTH. now rewrite HK.
Qed.



(** X16.
    The component with rails ends in a TypeError exactly when the data has
    no lane under one of the keys work, school and volunteering.  When it
    draws, it draws one group for each lane of the data, whatever its key,
    on a canvas as high as the ruler and those three lanes. *)
Theorem Rails_height_by_key (data : Rails.TimelineData) :
  (Rails.SvgTimeline data = TypeError <->
   Object_get data "work" = None \/ Object_get data "school" = None \/
   Object_get data "volunteering" = None) /\
  forall svg : Rails.Svg,
    Rails.SvgTimeline data = Returned svg ->
    List.length (Rails.groups svg) = List.length data /\
    exists work school volunteering,
      Object_get data "work" = Some work /\
      Object_get data "school" = Some school /\
      Object_get data "volunteering" = Some volunteering /\
      Rails.svgHeight svg
      = (Rails.RULER_HEIGHT + Rails.height work + Rails.height school
         + Rails.height volunteering)%Q.
Proof.
  split.
  - unfold Rails.SvgTimeline, Rails.canvasHeight. cbv zeta.
    destruct (Object_get data "work"), (Object_get data "school"),
      (Object_get data "volunteering"); split; intros H;
      try discriminate; try reflexivity; auto;
      destruct H as [H | [H | H]]; discriminate.
  - intros svg Hsvg.
    destruct (Rails_SvgTimeline_Returned data svg Hsvg) as (Eh & _ & _ & Eg).
    split.
    + rewrite Eg. unfold Rails.Object_values. now rewrite !length_map.
    + unfold Rails.canvasHeight in Eh.
      destruct (Object_get data "work") as [work|]; [|discriminate].
      destruct (Object_get data "school") as [school|]; [|discriminate].
      destruct (Object_get data "volunteering") as [volunteering|];
        [|discriminate].
      injection Eh as Eh. exists work, school, volunteering.
      repeat split. symmetry. exact Eh.
Qed.

End RailsCanvas.

(** ** The canvas of Timeline.tsx and of part_000 *)

Lemma LaneId_eqb_eq (a b : Timeline.LaneId) :
  Timeline.LaneId_eqb a b = true <-> a = b.
Proof. destruct a, b; cbn; split; congruence. Qed.

Lemma filter_split_lane {A : Type} (p q : A -> bool) (l : list A) :
  (forall v, p v = true -> q v = false) ->
  List.length (filter (fun v => p v || q v) l)
  = (List.length (filter p l) + List.length (filter q l))%nat.
Proof.
  intros H. induction l as [|v r IH]; [reflexivity|].
  cbn [filter]. destruct (p v) eqn:Ep.
  - rewrite (H v Ep). cbn [orb List.length]. lia.
  - cbn [orb]. destruct (q v); cbn [List.length]; lia.
Qed.

Section TimelineCanvas.
Context {host : Host}.

(** X10.
    The year loop runs at all only between two valid dates whose years are
    in order: an invalid bound, or a maximum in a year before the minimum,
    leaves the ruler without ticks. *)
Theorem yearsBetween_empty_iff (min max : Date) :
  yearsBetween min max = [] <->
  ~ exists a b, getFullYear min = Some a /\ getFullYear max = Some b /\
                a <= b.
Proof.
  destruct min as [|u], max as [|v];
    try (split; [intros _ (a & b & Ha & Hb & _); discriminate
                | reflexivity]).
  rewrite yearsBetween_Time. cbn [getFullYear].
  set (ya := YearFromTime (LocalTime u)).
  set (yb := YearFromTime (LocalTime v)).
  split.
  - intros E (a & b & Ha & Hb & Hab).
    injection Ha as <-. injection Hb as <-.
    replace (Z.to_nat (yb - ya + 1)) with (S (Z.to_nat (yb - ya))) in E
      by lia.
    rewrite yearRange_succ in E. discriminate.
  - intros Hn. destruct (Z_le_gt_dec ya yb) as [Hle | Hgt].
    + exfalso. apply Hn. now exists ya, yb.
    + replace (Z.to_nat (yb - ya + 1)) with O by lia. reflexivity.
Qed.

(** X17.
    Every lane of Timeline.tsx lies on the canvas, below the ruler and above
    the bottom, when the height of a lane and the gap are not negative. *)
Theorem Timeline_lanes_inside_canvas
  (data : list Timeline.TimelineItem) (lanes : list Timeline.LaneId)
  (laneHeight laneGap pxPerMonth : Q) (padMonths : Z) (idx : nat)
  (g : LaneGroup) :
  (0 <= laneHeight)%Q -> (0 <= laneGap)%Q ->
  nth_error (Timeline.groups
               (Timeline.SvgTimeline data lanes laneHeight laneGap
                  pxPerMonth padMonths)) idx = Some g ->
  (40 <= translateY g)%Q /\
  (translateY g + laneHeight
   <= Timeline.height (Timeline.SvgTimeline data lanes laneHeight laneGap
                         pxPerMonth padMonths))%Q.
Proof.
  intros Hh Hg Hn. cbn [Timeline.SvgTimeline Timeline.groups] in Hn.
  assert (Hidx : (idx < List.length lanes)%nat).
  { apply mapi_from_nth in Hn as (v & Hv & _).
    apply nth_error_Some. congruence. }
  apply mapi_from_nth in Hn as (v & _ & ->).
  cbn [Timeline.SvgTimeline Timeline.height Timeline.renderLane translateY].
  assert (H0 : 0 <= 0 + Z.of_nat idx) by lia.
  assert (H1 : 0 + Z.of_nat idx + 1 <= Z.of_nat (List.length lanes)) by lia.
  rewrite Zle_Qle in H0. rewrite Zle_Qle, inject_Z_plus in H1.
  change (inject_Z 0) with 0%Q in H0. change (inject_Z 1) with 1%Q in H1.
  set (i := inject_Z (0 + Z.of_nat idx)) in *.
  set (n := inject_Z (Z.of_nat (List.length lanes))) in *.
  clearbody i n. split; nra.
Qed.

Lemma Timeline_shapes_count (laneHeight laneGap pxPerMonth : Q) (min : Date)
  (data : list Timeline.TimelineItem) (lanes : list Timeline.LaneId) :
  NoDup lanes ->
  forall k,
    List.length
      (flat_map shapes
         (mapi_from (Timeline.renderLane laneHeight laneGap pxPerMonth min
                       data) k lanes))
    = List.length
        (filter (fun d => existsb (Timeline.LaneId_eqb (Timeline.lane d))
                            lanes) data).
Proof.
  induction 1 as [|l ls Hl _ IH]; intros k.
  - cbn. induction data as [|d r IHd]; [reflexivity | assumption].
  - cbn [mapi_from flat_map existsb]. rewrite length_app, IH.
    rewrite filter_split_lane.
    + f_equal. unfold Timeline.renderLane. cbn [shapes].
      now rewrite length_map.
    + intros d Hd. apply LaneId_eqb_eq in Hd.
      destruct (existsb _ ls) eqn:E; [|reflexivity].
      apply existsb_exists in E as (l' & Hin & Hl').
      apply LaneId_eqb_eq in Hl'. congruence.
Qed.

(** X18.
    With lanes listed once each, Timeline.tsx draws one shape for every
    item whose lane is listed, and none for the other items; with the three
    lanes of the default it draws every item exactly once. *)
Theorem Timeline_items_drawn_once
  (data : list Timeline.TimelineItem) (lanes : list Timeline.LaneId)
  (laneHeight laneGap pxPerMonth : Q) (padMonths : Z) :
  NoDup lanes ->
  let drawn :=
    flat_map shapes
      (Timeline.groups (Timeline.SvgTimeline data lanes laneHeight laneGap
                          pxPerMonth padMonths)) in
  List.length drawn
  = List.length
      (filter (fun d => existsb (Timeline.LaneId_eqb (Timeline.lane d)) lanes)
              data) /\
  ((forall l, In l lanes) -> List.length drawn = List.length data).
Proof.
  intros HN drawn. unfold drawn.
  cbn [Timeline.SvgTimeline Timeline.groups]. unfold mapi.
  rewrite Timeline_shapes_count by assumption.
  split; [reflexivity|]. intros Hall. f_equal.
  induction data as [|d r IH]; [reflexivity|].
  cbn [filter].
  assert (E : existsb (Timeline.LaneId_eqb (Timeline.lane d)) lanes = true).
  { apply existsb_exists. exists (Timeline.lane d).
    split; [apply Hall | now apply LaneId_eqb_eq]. }
  now rewrite E, IH.
Qed.

(** X19.
    In Timeline.tsx a bar that starts on the first of January of a year
    starts at the tick of that year, and a point of the same date is drawn
    100 to the left of it: the group of a bar is shifted like the ticks,
    the group of a point is not.  This wherever the tick has a position:
    at the edge of the range of dates the first of January of the year of a
    tick can be the Invalid Date, see [tick_NaN_at_range_edge]. *)
Theorem Timeline_point_offset
  (data : list Timeline.TimelineItem) (lanes : list Timeline.LaneId)
  (laneHeight laneGap pxPerMonth : Q) (padMonths : Z)
  (y : Z) (p : option Q) (bar point : Timeline.TimelineItem) :
  let svg := Timeline.SvgTimeline data lanes laneHeight laneGap pxPerMonth
               padMonths in
  let min := min (Timeline.domainFromData data padMonths) in
  In (y, p) (Timeline.ticks svg) ->
  p <> None ->
  toDate (Timeline.start bar) = Date_ymd (Some y) (Some 0) (Some 1) ->
  Timeline.endDate bar <> None ->
  toDate (Timeline.start point) = Date_ymd (Some y) (Some 0) (Some 1) ->
  Timeline.endDate point = None ->
  exists q,
    anchorX (Timeline.renderItem laneHeight pxPerMonth min point) = Some q /\
    num_eq (anchorX (Timeline.renderItem laneHeight pxPerMonth min bar))
           (q + 100) /\
    num_eq p (q + 100).
Proof.
  intros svg min0 Hin Hp Hb Hbe Hpt Hpe.
  unfold svg, Timeline.SvgTimeline in Hin. cbv zeta in Hin.
  unfold Timeline.ticks in Hin. fold min0 in Hin.
  apply in_map_iff in Hin as (y' & E & Hy).
  apply pair_equal_spec in E as [-> <-].
  unfold Timeline.renderItem. rewrite Hpe, Hb, Hpt.
  destruct (Timeline.endDate bar) as [e|]; [|congruence].
  destruct (x pxPerMonth min0 (Date_ymd (Some y) (Some 0) (Some 1)))
    as [v|]; [|exfalso; apply Hp; reflexivity].
  cbn [anchorX qadd lift2 num_eq].
  exists v. split; [reflexivity|]. split; ring.
Qed.

(** X20.
    Without items Timeline.tsx still draws: a canvas of width NaN, a ruler
    without ticks and, for every lane, a group without shapes. *)
Theorem Timeline_empty_data (lanes : list Timeline.LaneId)
  (laneHeight laneGap pxPerMonth : Q) (padMonths : Z) :
  let svg := Timeline.SvgTimeline [] lanes laneHeight laneGap pxPerMonth
               padMonths in
  Timeline.innerWidth svg = None /\
  Timeline.ticks svg = [] /\
  List.length (Timeline.groups svg) = List.length lanes /\
  Forall (fun g => shapes g = []) (Timeline.groups svg).
Proof.
  intros svg. unfold svg.
  cbn [Timeline.SvgTimeline Timeline.innerWidth Timeline.ticks
       Timeline.groups].
  unfold Timeline.domainFromData. cbn [Timeline.itemDates flat_map].
  rewrite domainOfDates_nil. cbn [min max].
  split; [reflexivity|]. split; [reflexivity|].
  unfold mapi. generalize 0 as k.
  induction lanes as [|l ls IH]; intros k; cbn [mapi_from List.length].
  - split; [reflexivity | constructor].
  - destruct (IH (k + 1)) as [IH1 IH2]. split.
    + now rewrite IH1.
    + constructor; [reflexivity | assumption].
Qed.

(** X22.
    The canvas of part_000 is as high as three lanes: the lanes of index 0,
    1 and 2 lie on it, and every further lane of the data is drawn below its
    bottom. *)
Theorem Lanes_fourth_lane_off_canvas (min : Date) (data : Lanes.TimelineData)
  (idx : nat) (g : LaneGroup) :
  nth_error (Lanes.laneGroups min data) idx = Some g ->
  ((translateY g + Lanes.LANE_HEIGHT <= Lanes.canvasHeight)%Q
   <-> (idx < 3)%nat).
Proof.
  intros Hn. unfold Lanes.laneGroups, mapi in Hn.
  apply mapi_from_nth in Hn as (v & _ & ->).
  unfold Lanes.renderLane, Lanes.canvasHeight, Lanes.NUM_LANES,
    Lanes.LANE_HEIGHT, Lanes.LANE_GAP. cbn [translateY].
  split.
  - intros H. destruct (Nat.lt_ge_cases idx 3) as [Hlt | Hge];
      [assumption | exfalso].
    assert (HZ : 3 <= 0 + Z.of_nat idx) by lia.
    rewrite Zle_Qle in HZ. change (inject_Z 3) with 3%Q in HZ.
    set (i := inject_Z (0 + Z.of_nat idx)) in *. clearbody i. lra.
  - intros H. assert (HZ : 0 + Z.of_nat idx <= 2) by lia.
    rewrite Zle_Qle in HZ. change (inject_Z 2) with 2%Q in HZ.
    set (i := inject_Z (0 + Z.of_nat idx)) in *. clearbody i. lra.
Qed.

End TimelineCanvas.

(** ** One invalid date *)

Section InvalidInput.
Context {host : Host}.

(** X21.
    One date that does not parse spoils the whole chart of Timeline.tsx:
    the domain is invalid, the width of the canvas is NaN, the ruler has no
    tick, and every shape of every lane is anchored at NaN. *)
Theorem Timeline_invalid_date_spoils_all
  (data : list Timeline.TimelineItem) (lanes : list Timeline.LaneId)
  (laneHeight laneGap pxPerMonth : Q) (padMonths : Z) :
  In InvalidDate (Timeline.itemDates data) ->
  let svg := Timeline.SvgTimeline data lanes laneHeight laneGap pxPerMonth
               padMonths in
  Timeline.domainFromData data padMonths
  = {| min := InvalidDate; max := InvalidDate |} /\
  Timeline.innerWidth svg = None /\
  Timeline.ticks svg = [] /\
  forall g s, In g (Timeline.groups svg) -> In s (shapes g) ->
              anchorX s = None.
Proof.
  intros Hin svg.
  assert (E : Timeline.domainFromData data padMonths
              = {| min := InvalidDate; max := InvalidDate |})
    by now apply domainOfDates_invalid.
  unfold svg, Timeline.SvgTimeline. cbv zeta. rewrite E. cbn [min max].
  split; [reflexivity|]. split; [reflexivity|]. split; [reflexivity|].
  cbn [Timeline.groups]. unfold mapi. generalize 0 as k.
  induction lanes as [|l ls IH]; intros k g s Hg Hs; [contradiction|].
  cbn [mapi_from] in Hg. destruct Hg as [<- | Hg]; [|eapply IH; eassumption].
  cbn [Timeline.renderLane shapes] in Hs.
  apply in_map_iff in Hs as (it & <- & _).
  unfold Timeline.renderItem.
  destruct (Timeline.endDate it); cbn [anchorX];
    now rewrite x_invalid_origin.
Qed.

End InvalidInput.

(** ** The further statements on the sample inputs *)

Lemma monthDiff_order_witness :
  exists k, @monthDiff utcHost (Time origin2016) (Time may01) = Some k /\
            0 <= k /\
            (k = 0 <-> @startOfMonth utcHost (Time origin2016)
                       = @startOfMonth utcHost (Time may01)).
Proof.
  assert (P1 : @plain utcHost (Time origin2016))
    by (apply plainb_plain; vm_compute; reflexivity).
  assert (P2 : @plain utcHost (Time may01))
    by (apply plainb_plain; vm_compute; reflexivity).
  assert (H : origin2016 <= may01) by (unfold origin2016, may01; lia).
  exact (@monthDiff_order utcHost origin2016 may01 P1 P2 H).
Defined.

Lemma startOfMonth_floor_witness :
  exists s,
    @startOfMonth utcHost (Time may20) = Time s /\ s <= may20 /\
    @startOfMonth utcHost (Time s) = Time s /\
    @getFullYear utcHost (Time s) = @getFullYear utcHost (Time may20) /\
    @getMonth utcHost (Time s) = @getMonth utcHost (Time may20) /\
    @getDate utcHost (Time s) = Some 1 /\
    forall u, @startOfMonth utcHost (Time u) = Time u -> u <= may20 -> u <= s.
Proof.
  assert (P : @plain utcHost (Time may20))
    by (apply plainb_plain; vm_compute; reflexivity).
  exact (@startOfMonth_floor utcHost may20 P).
Defined.

Lemma year_bracket_witness :
  exists s e y,
    @getFullYear utcHost (Time may20) = Some y /\
    @startOfYear utcHost (Time may20) = Time s /\
    @endOfYear utcHost (Time may20) = Time e /\
    s <= may20 <= e /\
    @getFullYear utcHost (Time s) = Some y /\
    @getFullYear utcHost (Time e) = Some y /\
    @getFullYear utcHost (Time (e + 1)) = Some (y + 1) /\
    @getMonth utcHost (Time (e + 1)) = Some 0 /\
    @getDate utcHost (Time (e + 1)) = Some 1.
Proof.
  assert (P : @plain utcHost (Time may20))
    by (apply plainb_plain; vm_compute; reflexivity).
  exact (@year_bracket utcHost may20 P).
Defined.

Lemma addMonths_month_bounds_witness :
  exists k,
    @monthDiff utcHost (Time jan15) (Time 1581724800000) = Some k /\
    1 <= k <= 1 + 1.
Proof.
  assert (H : @addMonths utcHost (Time jan15) 1 = Time 1581724800000)
    by (vm_compute; reflexivity).
  exact (@addMonths_month_bounds utcHost jan15 1 1581724800000 H).
Defined.


Lemma x_in_month_strip_witness :
  exists k q,
    @monthDiff utcHost (@startOfMonth utcHost (Time origin2016))
      (@startOfMonth utcHost (Time may20)) = Some k /\
    num_eq (@x utcHost 14 (Time origin2016)
              (@startOfMonth utcHost (Time may20)))
           (inject_Z k * 14) /\
    @x utcHost 14 (Time origin2016) (Time may20) = Some q /\
    (inject_Z k * 14 <= q)%Q /\ (q <= inject_Z k * 14 + 14)%Q.
Proof.
  assert (H : (0 <= 14)%Q) by discriminate.
  assert (P0 : @plain utcHost (Time origin2016))
    by (apply plainb_plain; vm_compute; reflexivity).
  assert (P2 : @plain utcHost (Time may20))
    by (apply plainb_plain; vm_compute; reflexivity).
  exact (@x_in_month_strip utcHost 14 origin2016 may20 H P0 P2).
Defined.

Lemma x_NaN_or_number_witness :
  @x utcHost 14 InvalidDate (Time may20) = None /\
  exists q, @x utcHost 14 (Time origin2016) (Time may20) = Some q.
Proof.
  assert (P0 : @plain utcHost (Time origin2016))
    by (apply plainb_plain; vm_compute; reflexivity).
  assert (P2 : @plain utcHost (Time may20))
    by (apply plainb_plain; vm_compute; reflexivity).
  split.
  - exact (proj1 (@x_NaN_or_number utcHost 14 InvalidDate (Time may20))
             (or_introl eq_refl)).
  - exact (proj2 (@x_NaN_or_number utcHost 14 (Time origin2016) (Time may20))
             P0 P2).
Defined.

Lemma domain_order_independent_witness :
  @Timeline.domainFromData utcHost [identio; graduation] 1
  = @Timeline.domainFromData utcHost [graduation; identio] 1.
Proof.
  apply (proj1 (@domain_order_independent utcHost)). apply perm_swap.
Defined.

Lemma domain_widens_with_padding_witness :
  date_le (min (@Timeline.domainFromData utcHost Timeline.DATA 5))
          (min (@Timeline.domainFromData utcHost Timeline.DATA 1)) /\
  date_le (max (@Timeline.domainFromData utcHost Timeline.DATA 1))
          (max (@Timeline.domainFromData utcHost Timeline.DATA 5)).
Proof.
  assert (H1 : Timeline.DATA <> []) by discriminate.
  assert (H2 : Forall (@plain utcHost)
                 (@Timeline.itemDates utcHost Timeline.DATA))
    by (apply forallb_plain; vm_compute; reflexivity).
  assert (H3 : 0 <= 1 <= 5) by lia.
  assert (H4 : isValid (min (@Timeline.domainFromData utcHost Timeline.DATA 5)))
    by (vm_compute; exact I).
  assert (H5 : isValid (max (@Timeline.domainFromData utcHost Timeline.DATA 5)))
    by (vm_compute; exact I).
  exact (@domain_widens_with_padding utcHost Timeline.DATA 1 5 H1 H2 H3 H4 H5).
Defined.

Lemma ticks_cover_items_witness :
  exists ys ye,
    @getFullYear utcHost (@toDate utcHost (Str (Rails.start arado)))
    = Some ys /\
    @getFullYear utcHost (@toDate utcHost (Str (Rails.end_ arado)))
    = Some ye /\
    In ys (map fst (Rails.ticks drawnDATA)) /\
    In ye (map fst (Rails.ticks drawnDATA)).
Proof.
  assert (H1 : Forall (@plain utcHost) (@Rails.itemDates utcHost Rails.DATA))
    by (apply forallb_plain; vm_compute; reflexivity).
  assert (H0 : @Rails.SvgTimeline utcHost Rails.DATA = Returned drawnDATA)
    by (vm_compute; reflexivity).
  assert (H2 : In (snd (nth 0 Rails.DATA ("x"%string, hobbies)))
                  (Rails.Object_values Rails.DATA))
    by (left; reflexivity).
  assert (H3 : In arado
                  (Rails.items (snd (nth 0 Rails.DATA ("x"%string, hobbies)))))
    by (right; right; right; left; reflexivity).
  exact (proj2 (@ticks_cover_items utcHost) Rails.DATA drawnDATA H1 H0 _ arado
           H2 H3).
Defined.

Lemma Rails_width_by_ticks_witness :
  num_eq (@Rails.totalMonths utcHost Rails.DATA)
         (12 * inject_Z (Z.of_nat (List.length (Rails.ticks drawnDATA)))) /\
  num_eq (Rails.svgWidth drawnDATA)
         (Qmax 800
            (12 * inject_Z (Z.of_nat (List.length (Rails.ticks drawnDATA)))
             * 14)).
Proof.
  assert (H1 : @Rails.itemDates utcHost Rails.DATA <> [])
    by (vm_compute; discriminate).
  assert (H2 : Forall (@plain utcHost) (@Rails.itemDates utcHost Rails.DATA))
    by (apply forallb_plain; vm_compute; reflexivity).
  assert (H0 : @Rails.SvgTimeline utcHost Rails.DATA = Returned drawnDATA)
    by (vm_compute; reflexivity).
  exact (@Rails_width_by_ticks utcHost Rails.DATA drawnDATA H1 H2 H0).
Defined.


Lemma Rails_height_by_key_witness :
  List.length (Rails.groups drawnDATA) = List.length Rails.DATA /\
  exists work school volunteering,
    Object_get Rails.DATA "work" = Some work /\
    Object_get Rails.DATA "school" = Some school /\
    Object_get Rails.DATA "volunteering" = Some volunteering /\
    Rails.svgHeight drawnDATA
    = (Rails.RULER_HEIGHT + Rails.height work + Rails.height school
       + Rails.height volunteering)%Q.
Proof.
  assert (H0 : @Rails.SvgTimeline utcHost Rails.DATA = Returned drawnDATA)
    by (vm_compute; reflexivity).
  exact (proj2 (@Rails_height_by_key utcHost Rails.DATA) drawnDATA H0).
Defined.

(** A lane under a fourth key is drawn, and a lane that is missing under one
    of the three keys stops the component. *)
Remark Rails_other_keys :
  (exists svg,
     @Rails.SvgTimeline utcHost (Rails.DATA ++ [("hobbies"%string, hobbies)])
     = Returned svg /\
     List.length (Rails.groups svg) = 4%nat /\
     (Rails.svgHeight svg == Rails.svgHeight drawnDATA)%Q) /\
  @Rails.SvgTimeline utcHost (onlyItem arado) = TypeError.
Proof.
  split; [|reflexivity].
  eexists. split; [reflexivity|]. split; reflexivity.
Qed.

Lemma Timeline_lanes_inside_canvas_witness :
  (40 <= translateY (@Timeline.renderLane utcHost 64 12 20
                       (min (@Timeline.domainFromData utcHost Timeline.DATA 1))
                       Timeline.DATA Timeline.School (0 + 1)))%Q /\
  (translateY (@Timeline.renderLane utcHost 64 12 20
                 (min (@Timeline.domainFromData utcHost Timeline.DATA 1))
                 Timeline.DATA Timeline.School (0 + 1)) + 64
   <= Timeline.height (@Timeline.SvgTimeline utcHost Timeline.DATA
                         defaultLanes 64 12 20 1))%Q.
Proof.
  assert (H1 : (0 <= 64)%Q) by discriminate.
  assert (H2 : (0 <= 12)%Q) by discriminate.
  exact (@Timeline_lanes_inside_canvas utcHost Timeline.DATA defaultLanes
           64 12 20 1 1%nat _ H1 H2 eq_refl).
Defined.

Lemma Timeline_items_drawn_once_witness :
  List.length
    (flat_map shapes
       (Timeline.groups (@Timeline.SvgTimeline utcHost Timeline.DATA
                           defaultLanes 64 12 20 1)))
  = List.length Timeline.DATA.
Proof.
  assert (H1 : NoDup defaultLanes).
  { repeat constructor; cbn; intuition discriminate. }
  assert (H2 : forall l, In l defaultLanes).
  { intros l. destruct l; cbn; auto. }
  exact (proj2 (@Timeline_items_drawn_once utcHost Timeline.DATA defaultLanes
                  64 12 20 1 H1) H2).
Defined.

Lemma Timeline_point_offset_witness :
  exists q,
    anchorX (@Timeline.renderItem utcHost 64 20
               (min (@Timeline.domainFromData utcHost Timeline.DATA 1))
               newYearPoint) = Some q /\
    num_eq (anchorX (@Timeline.renderItem utcHost 64 20
                       (min (@Timeline.domainFromData utcHost Timeline.DATA 1))
                       newYearBar))
           (q + 100) /\
    num_eq (qadd (@x utcHost 20
                    (min (@Timeline.domainFromData utcHost Timeline.DATA 1))
                    (@Date_ymd utcHost (Some 2020) (Some 0) (Some 1)))
                 (Some 100%Q))
           (q + 100).
Proof.
  assert (H1 : In (2020,
                   qadd (@x utcHost 20
                           (min (@Timeline.domainFromData utcHost
                                   Timeline.DATA 1))
                           (@Date_ymd utcHost (Some 2020) (Some 0) (Some 1)))
                        (Some 100%Q))
                  (Timeline.ticks (@Timeline.SvgTimeline utcHost Timeline.DATA
                                     defaultLanes 64 12 20 1))).
  { unfold Timeline.SvgTimeline. cbv zeta. cbn [Timeline.ticks].
    match goal with
    | |- In _ (map ?f ?l) =>
        assert (Hy : In 2020 l) by (vm_compute; auto 10);
        exact (in_map f l 2020 Hy)
    end. }
  assert (H2 : @Timeline.endDate utcHost newYearBar <> None)
    by discriminate.
  assert (H3 : qadd (@x utcHost 20
                       (min (@Timeline.domainFromData utcHost Timeline.DATA 1))
                       (@Date_ymd utcHost (Some 2020) (Some 0) (Some 1)))
                    (Some 100%Q) <> None)
    by (vm_compute; discriminate).
  exact (@Timeline_point_offset utcHost Timeline.DATA defaultLanes 64 12 20 1
           2020 _ newYearBar newYearPoint H1 H3 eq_refl H2 eq_refl eq_refl).
Defined.

(** At the edge of the range of dates a tick has no position.  For an item
    of June -271820 and a padding of one month the domain starts in December
    -271821, a valid date, but the first of January of that year is not: the
    tick of -271821 stands at NaN, and a point on that date is anchored at
    NaN. *)
Remark tick_NaN_at_range_edge :
  isValid (min (@Timeline.domainFromData utcHost firstYear 1)) /\
  In (-271821, None)
     (Timeline.ticks (@Timeline.SvgTimeline utcHost firstYear defaultLanes
                        64 12 20 1)) /\
  @toDate utcHost (Timeline.start invalidBar)
  = @Date_ymd utcHost (Some (-271821)) (Some 0) (Some 1) /\
  @toDate utcHost (Timeline.start invalidPoint)
  = @Date_ymd utcHost (Some (-271821)) (Some 0) (Some 1) /\
  anchorX (@Timeline.renderItem utcHost 64 20
             (min (@Timeline.domainFromData utcHost firstYear 1))
             invalidPoint) = None.
Proof.
  vm_compute. split; [exact I|]. split; [left; reflexivity|].
  repeat split.
Qed.

Lemma Timeline_invalid_date_spoils_all_witness :
  @Timeline.domainFromData utcHost [identio; brokenItem] 1
  = {| min := InvalidDate; max := InvalidDate |}.
Proof.
  assert (H : In InvalidDate
                 (@Timeline.itemDates utcHost [identio; brokenItem]))
    by (vm_compute; auto).
  exact (proj1 (@Timeline_invalid_date_spoils_all utcHost
                  [identio; brokenItem] defaultLanes 64 12 20 1 H)).
Defined.

Lemma Lanes_fourth_lane_off_canvas_witness :
  (translateY (@Lanes.renderLane utcHost (Time origin2016)
                 (noItems "Hobbies") (0 + 3))
   + Lanes.LANE_HEIGHT <= Lanes.canvasHeight)%Q
  <-> (3 < 3)%nat.
Proof.
  exact (@Lanes_fourth_lane_off_canvas utcHost (Time origin2016) fourLanes
           3%nat _ eq_refl).
Defined.
